(** * Shoe Store API: a shallow embedding of [main.py] and [schemas.py]

    The handlers of the FastAPI application are embedded as functions over
    an explicit store: the module-level handle [db] of [database.py] is
    either [None] or a pymongo database, Python exceptions are an error
    monad, and the responses FastAPI produces from a handler's return value
    or exception are computed by [respond]. *)

From Stdlib Require Import ZArith NArith List String Ascii Lia.
From Stdlib Require Import PrimFloat FloatOps FloatAxioms.
From stdpp Require Import base option list strings pretty gmap.

Set Warnings "-inexact-float,-register-all,-clear-no-such-hyp".

(** ** Python values *)

(** [bson.ObjectId]: the identifier the store assigns to a document. *)
Record ObjectId := mkObjectId { oid_value : N }.

(** [datetime.datetime], in microseconds since the epoch (UTC). *)
Record datetime := mkDatetime { micros : Z }.

(** The values that occur in request bodies and stored documents. *)
Inductive value :=
| VNone
| VBool (b : bool)
| VInt (z : Z)
| VFloat (f : float)
| VStr (s : string)
| VList (l : list value)
| VDatetime (t : datetime)
| VObjectId (o : ObjectId).

(** A Python [dict] with string keys. *)
Abbreviation pydict := (gmap string value).

(** ** Exceptions and the handler monad *)

Inductive exn :=
| HTTPException (status_code : Z) (detail : string)
| ValidationError (msg : string)
| PyMongoError (msg : string)
| Exception (msg : string).

Inductive result (A : Type) :=
| Ok (a : A)
| Raise (e : exn).
Arguments Ok {A} a.
Arguments Raise {A} e.

(** A computation over a mutable state [S] that may raise. The state at
    the point of a [Raise] is kept: that is what an [except] clause sees. *)
Definition M (S A : Type) : Type := S -> result A * S.

Definition raise {S A} (e : exn) : M S A := fun s => (Raise e, s).

Definition get {S} : M S S := fun s => (Ok s, s).

Definition modify {S} (f : S -> S) : M S unit := fun s => (Ok tt, f s).

(** Lifting of an operation that cannot change the state. *)
Definition lift {S A} (r : result A) : M S A := fun s => (r, s).

(** [try: m except Exception as e: h e] *)
Definition try_except {S A} (m : M S A) (h : exn -> M S A) : M S A :=
  fun s => match m s with
           | (Ok a, s') => (Ok a, s')
           | (Raise e, s') => h e s'
           end.

#[global] Instance M_ret {S} : MRet (M S) := fun A a s => (Ok a, s).

#[global] Instance M_bind {S} : MBind (M S) := fun A B k m s =>
  match m s with
  | (Ok a, s') => k a s'
  | (Raise e, s') => (Raise e, s')
  end.

(** ** Strings *)

(** [s[:n]] *)
Fixpoint str_prefix (n : nat) (s : string) : string :=
  match n, s with
  | S n', String c s' => String c (str_prefix n' s')
  | _, _ => EmptyString
  end.

Arguments str_prefix : simpl never.

(** Truthiness of a [str]: the empty string is falsy. *)
Definition str_truthy (s : string) : bool :=
  match s with
  | EmptyString => false
  | String _ _ => true
  end.

Definition hex_digit (n : N) : ascii :=
  match n with
  | 0 => "0" | 1 => "1" | 2 => "2" | 3 => "3" | 4 => "4" | 5 => "5"
  | 6 => "6" | 7 => "7" | 8 => "8" | 9 => "9" | 10 => "a" | 11 => "b"
  | 12 => "c" | 13 => "d" | 14 => "e" | _ => "f"
  end%N%char.

Fixpoint hex_digits (width : nat) (n : N) (acc : string) : string :=
  match width with
  | O => acc
  | S w => hex_digits w (n / 16)%N (String (hex_digit (n mod 16)%N) acc)
  end.

(** [str(oid)]: the 24 hexadecimal digits of the identifier's 12 bytes. *)
Definition str_ObjectId (o : ObjectId) : string :=
  hex_digits 24 (oid_value o) EmptyString.

(** ** Equality of values *)

Fixpoint value_eqb (a b : value) : bool :=
  match a, b with
  | VNone, VNone => true
  | VBool x, VBool y => Bool.eqb x y
  | VInt x, VInt y => Z.eqb x y
  | VFloat x, VFloat y => PrimFloat.Leibniz.eqb x y
  | VStr x, VStr y => String.eqb x y
  | VList x, VList y =>
      (fix all2 (l1 l2 : list value) : bool :=
         match l1, l2 with
         | [], [] => true
         | u :: l1', v :: l2' => value_eqb u v && all2 l1' l2'
         | _, _ => false
         end) x y
  | VDatetime x, VDatetime y => Z.eqb (micros x) (micros y)
  | VObjectId x, VObjectId y => N.eqb (oid_value x) (oid_value y)
  | _, _ => false
  end.

(** ** The document store

    A pymongo [Database]. [db_fault] is [Some msg] while the server cannot
    be reached: every operation then raises with that message. A collection
    holds its documents in insertion order; [next_oid] is the next
    identifier the server hands out. *)
Record Database := mkDatabase {
  db_name : string;
  db_fault : option string;
  db_collections : gmap string (list pydict);
  next_oid : N
}.

(** [db[c]]: a collection that was never written to is empty. *)
Definition collection (d : Database) (c : string) : list pydict :=
  default [] (db_collections d !! c).

Definition reach {A} (d : Database) (a : A) : result A :=
  match db_fault d with
  | Some msg => Raise (PyMongoError msg)
  | None => Ok a
  end.

(** [db.list_collection_names()] *)
Definition list_collection_names (d : Database) : result (list string) :=
  reach d (map fst (map_to_list (db_collections d))).

(** [db[c].count_documents({})] *)
Definition count_documents (d : Database) (c : string) : result nat :=
  reach d (length (collection d c)).

(** The values a document contributes to [distinct]: the field's value,
    or each element when the field holds an array. *)
Definition field_values (key : string) (doc : pydict) : list value :=
  match doc !! key with
  | Some (VList l) => l
  | Some v => [v]
  | None => []
  end.

(** Removal of repeated values, keeping first occurrences. *)
Fixpoint dedup (l : list value) : list value :=
  match l with
  | [] => []
  | v :: l' => v :: filter (fun w => negb (value_eqb v w)) (dedup l')
  end.

(** [db[c].distinct(key)]. The store fixes no order on the distinct
    values; here they come in order of first occurrence. *)
Definition distinct (d : Database) (c key : string) : result (list value) :=
  reach d (dedup (concat (map (field_values key) (collection d c)))).

(** The server stores a document under the [_id] it carries, or under a
    fresh [ObjectId] when it carries none. *)
Definition assign_id (oid : N) (doc : pydict) : pydict :=
  match doc !! "_id" with
  | Some _ => doc
  | None => <["_id" := VObjectId (mkObjectId oid)]> doc
  end.

Fixpoint assign_ids (oid : N) (docs : list pydict) : list pydict :=
  match docs with
  | [] => []
  | doc :: docs' => assign_id oid doc :: assign_ids (N.succ oid) docs'
  end.

Definition inserted_id (doc : pydict) : value := default VNone (doc !! "_id").

(** [db[c].insert_many(docs).inserted_ids] *)
Definition insert_many (c : string) (docs : list pydict) (d : Database)
  : result (list value) * Database :=
  match db_fault d with
  | Some msg => (Raise (PyMongoError msg), d)
  | None =>
      let stored := assign_ids (next_oid d) docs in
      (Ok (map inserted_id stored),
       {| db_name := db_name d;
          db_fault := None;
          db_collections := <[c := collection d c ++ stored]> (db_collections d);
          next_oid := (next_oid d + N.of_nat (length docs))%N |})
  end.

(** [db[c].insert_one(doc).inserted_id] *)
Definition insert_one (c : string) (doc : pydict) (d : Database)
  : result value * Database :=
  match insert_many c [doc] d with
  | (Ok ids, d') => (Ok (default VNone (head ids)), d')
  | (Raise e, d') => (Raise e, d')
  end.

(** An equality filter: every key of the filter is present in the
    document with an equal value. *)
Definition matches (flt doc : pydict) : bool :=
  forallb (fun kv => match doc !! kv.1 with
                     | Some w => value_eqb kv.2 w
                     | None => false
                     end) (map_to_list flt).

(** [list(db[c].find(flt))] *)
Definition find (d : Database) (c : string) (flt : pydict) : result (list pydict) :=
  reach d (filter (fun doc => matches flt doc) (collection d c)).

(** ** Field validation (pydantic)

    A field of a model is read from a [dict] of raw values: the value is
    checked against the declared type, a missing field takes its default
    when it has one. A [float] field takes a float, an integer that
    converts to a finite float (round-to-nearest; a larger one is refused),
    or a bool; a [bool] field takes a bool, or the numbers 0 and 1. The
    conversion of strings to numbers and bools is not part of this
    development: such inputs are refused here, so the properties below
    speak of the request model that validation produced, not of the bodies
    it refuses. *)

Definition float_of_Z (z : Z) : float :=
  SF2Prim (SpecFloat.binary_normalize prec emax z 0 false).

Definition as_str (v : value) : option string :=
  match v with VStr s => Some s | _ => None end.

Definition as_float (v : value) : option float :=
  match v with
  | VFloat f => Some f
  | VInt z =>
      let f := float_of_Z z in
      if PrimFloat.is_finite f then Some f else None
  | VBool b => Some (if b then 1%float else 0%float)
  | _ => None
  end.

Definition as_bool (v : value) : option bool :=
  match v with
  | VBool b => Some b
  | VInt 0 => Some false
  | VInt 1 => Some true
  | VFloat f =>
      if (f =? 0)%float then Some false
      else if (f =? 1)%float then Some true
      else None
  | _ => None
  end.

(** [Optional[T]] *)
Definition as_optional {A} (conv : value -> option A) (v : value) : option (option A) :=
  match v with
  | VNone => Some None
  | _ => Some <$> conv v
  end.

(** [List[T]] *)
Definition as_list {A} (conv : value -> option A) (v : value) : option (list A) :=
  match v with
  | VList l => mapM conv l
  | _ => None
  end.

(** A field declared without default. *)
Definition required {A} (conv : value -> option A) (kw : pydict) (key : string)
  : option A :=
  kw !! key ≫= conv.

(** A field declared with a default. *)
Definition defaulted {A} (conv : value -> option A) (dflt : A) (kw : pydict)
    (key : string) : option A :=
  match kw !! key with
  | None => Some dflt
  | Some v => conv v
  end.

(** The request model of [POST /api/shoes] ([main.py]): types only. *)
Module ShoeCreate.

Record t := mk {
  name : string;
  brand : string;
  price : float;
  description : option string;
  images : list string;
  colors : list string;
  sizes : list float;
  featured : bool;
  rating : option float;
  in_stock : bool
}.

Definition parse (kw : pydict) : option t :=
  name ← required as_str kw "name";
  brand ← required as_str kw "brand";
  price ← required as_float kw "price";
  description ← defaulted (as_optional as_str) None kw "description";
  images ← defaulted (as_list as_str) [] kw "images";
  colors ← defaulted (as_list as_str) [] kw "colors";
  sizes ← defaulted (as_list as_float) [] kw "sizes";
  featured ← defaulted as_bool false kw "featured";
  rating ← defaulted (as_optional as_float) None kw "rating";
  in_stock ← defaulted as_bool true kw "in_stock";
  Some (mk name brand price description images colors sizes featured
           rating in_stock).

Definition model_dump (m : t) : pydict :=
  <["name" := VStr (name m)]>
  (<["brand" := VStr (brand m)]>
  (<["price" := VFloat (price m)]>
  (<["description" := from_option VStr VNone (description m)]>
  (<["images" := VList (VStr <$> images m)]>
  (<["colors" := VList (VStr <$> colors m)]>
  (<["sizes" := VList (VFloat <$> sizes m)]>
  (<["featured" := VBool (featured m)]>
  (<["rating" := from_option VFloat VNone (rating m)]>
  (<["in_stock" := VBool (in_stock m)]> ∅))))))))).

End ShoeCreate.

(** The collection schema [Shoe] ([schemas.py]): the same fields, with
  [price >= 0] and [0 <= rating <= 5]. *)
Module Shoe.

Record t := mk {
  name : string;
  brand : string;
  price : float;
  description : option string;
  images : list string;
  colors : list string;
  sizes : list float;
  featured : bool;
  rating : option float;
  in_stock : bool
}.

(** [Field(..., ge=0)] *)
Definition ge0 (f : float) : bool := (0 <=? f)%float.

(** [Field(None, ge=0, le=5)]: the bounds apply to a value that is
    present. *)
Definition ge0_le5 (r : option float) : bool :=
  match r with
  | None => true
  | Some f => (0 <=? f)%float && (f <=? 5)%float
  end.

Definition typed (kw : pydict) : option t :=
  name ← required as_str kw "name";
  brand ← required as_str kw "brand";
  price ← required as_float kw "price";
  description ← defaulted (as_optional as_str) None kw "description";
  images ← defaulted (as_list as_str) [] kw "images";
  colors ← defaulted (as_list as_str) [] kw "colors";
  sizes ← defaulted (as_list as_float) [] kw "sizes";
  featured ← defaulted as_bool false kw "featured";
  rating ← defaulted (as_optional as_float) None kw "rating";
  in_stock ← defaulted as_bool true kw "in_stock";
  Some (mk name brand price description images colors sizes featured
           rating in_stock).

(** The constructor [Shoe] on keyword arguments [kw]: raises
    [ValidationError] when a field has the wrong type or breaks its
    bounds. *)
Definition parse (kw : pydict) : result t :=
  match typed kw with
  | None => Raise (ValidationError "validation error for Shoe")
  | Some m =>
      if ge0 (price m) && ge0_le5 (rating m) then Ok m
      else Raise (ValidationError "validation error for Shoe")
  end.

Definition model_dump (m : t) : pydict :=
  <["name" := VStr (name m)]>
  (<["brand" := VStr (brand m)]>
  (<["price" := VFloat (price m)]>
  (<["description" := from_option VStr VNone (description m)]>
  (<["images" := VList (VStr <$> images m)]>
  (<["colors" := VList (VStr <$> colors m)]>
  (<["sizes" := VList (VFloat <$> sizes m)]>
  (<["featured" := VBool (featured m)]>
  (<["rating" := from_option VFloat VNone (rating m)]>
  (<["in_stock" := VBool (in_stock m)]> ∅))))))))).

End Shoe.

(** ** Rendering: [str(x)] *)

(** [str(v)]. The renderings of floats, dates and lists are outside this
    development: [None] stands for them. *)
Definition py_str (v : value) : option string :=
  match v with
  | VNone => Some "None"
  | VBool true => Some "True"
  | VBool false => Some "False"
  | VInt z => Some (pretty z)
  | VStr s => Some s
  | VObjectId o => Some (str_ObjectId o)
  | VFloat _ | VDatetime _ | VList _ => None
  end.

(** [str(e)] for a caught exception. *)
Definition str_exn (e : exn) : string :=
  match e with
  | HTTPException status_code detail => pretty status_code +:+ ": " +:+ detail
  | ValidationError msg => msg
  | PyMongoError msg => msg
  | Exception msg => msg
  end.

(** ** [database.py]

    The handle [db] is the state of every handler: [None] when the store is
    not configured. *)
Abbreviation handle := (option Database).

(** A store call through [db]. *)
Definition call {A} (f : Database -> result A * Database) : M handle A :=
  fun db => match db with
            | Some d => let '(r, d') := f d in (r, Some d')
            | None => (Raise (Exception "'NoneType' object is not subscriptable"), None)
            end.

(** Modelled from the spec: [create_document] of [database.py], which is
    not among the sources. Create shoe "inserts one record and returns its
    newly assigned identifier as a string"; records created this way carry
    no timestamps; a store that is not available makes the call fail, the
    failure propagating as a generic server error. *)
Definition create_document (collection_name : string) (data : Shoe.t)
  : M handle string :=
  db ← get;
  match db with
  | None => raise (Exception "Database not available")
  | Some _ =>
      inserted_id ← call (insert_one collection_name (Shoe.model_dump data));
      match py_str inserted_id with
      | Some s => mret s
      | None => raise (Exception "identifier without rendering")
      end
  end.

(** Modelled from the spec: [get_documents] of [database.py], which is not
    among the sources. List shoes "returns up to [limit] matching records"
    of an equality filter, in the store's order; a failing store call
    propagates as a server error. *)
Definition get_documents (collection_name : string) (filter_dict : pydict)
    (limit : Z) : M handle (list pydict) :=
  db ← get;
  match db with
  | None => raise (Exception "Database not available")
  | Some d =>
      docs ← lift (find d collection_name filter_dict);
      mret (take (Z.to_nat limit) docs)
  end.

(** ** [main.py]: the handlers *)

(** [os.getenv(k)] used as a condition: set and not empty. *)
Definition getenv_truthy (environ : gmap string string) (k : string) : bool :=
  match environ !! k with
  | Some v => str_truthy v
  | None => false
  end.

(** [GET /test]. The local [response] is the state of the body; [db] is
    only read. *)
Definition test_database (environ : gmap string string) (db : handle)
  : result pydict :=
  let response : pydict :=
    <["backend" := VStr "✅ Running"]>
    (<["database" := VStr "❌ Not Available"]>
    (<["database_url" := VNone]>
    (<["database_name" := VNone]>
    (<["connection_status" := VStr "Not Connected"]>
    (<["collections" := VList []]> ∅))))) in
  let body : M pydict unit :=
    try_except
      (match db with
       | Some d =>
           modify <["database" := VStr "✅ Available"]>;;
           modify <["database_url" := VStr "✅ Configured"]>;;
           modify <["database_name" := VStr (db_name d)]>;;
           modify <["connection_status" := VStr "Connected"]>;;
           try_except
             (collections ← lift (list_collection_names d);
              modify <["collections" := VList (VStr <$> take 10 collections)]>;;
              modify <["database" := VStr "✅ Connected & Working"]>)
             (fun e =>
                modify <["database" :=
                  VStr ("⚠️  Connected but Error: " +:+ str_prefix 50 (str_exn e))]>)
       | None =>
           modify <["database" := VStr "⚠️  Available but not initialized"]>
       end)
      (fun e =>
         modify <["database" := VStr ("❌ Error: " +:+ str_prefix 50 (str_exn e))]>);;
    modify <["database_url" :=
      VStr (if getenv_truthy environ "DATABASE_URL" then "✅ Set" else "❌ Not Set")]>;;
    modify <["database_name" :=
      VStr (if getenv_truthy environ "DATABASE_NAME" then "✅ Set" else "❌ Not Set")]>
  in
  match body response with
  | (Ok _, response') => Ok response'
  | (Raise e, _) => Raise e
  end.

(** The filter [list_shoes] builds from its query parameters. *)
Definition list_shoes_filter (brand : option string) (featured : option bool)
  : pydict :=
  let filter_dict : pydict := ∅ in
  let filter_dict :=
    match brand with
    | Some b => if str_truthy b then <["brand" := VStr b]> filter_dict
                else filter_dict
    | None => filter_dict
    end in
  let filter_dict :=
    match featured with
    | Some f => <["featured" := VBool f]> filter_dict
    | None => filter_dict
    end in
  filter_dict.

(** One turn of the loop of [list_shoes]: [_id] is exposed as [id]. *)
Definition expose_id (d : pydict) : result pydict :=
  match d !! "_id" with
  | Some v =>
      match py_str v with
      | Some s => Ok (delete "_id" (<["id" := VStr s]> d))
      | None => Raise (Exception "identifier without rendering")
      end
  | None => Ok d
  end.

Fixpoint expose_ids (docs : list pydict) : result (list pydict) :=
  match docs with
  | [] => Ok []
  | d :: docs' =>
      match expose_id d with
      | Ok d' =>
          match expose_ids docs' with
          | Ok ds => Ok (d' :: ds)
          | Raise e => Raise e
          end
      | Raise e => Raise e
      end
  end.

(** [GET /api/shoes]: the value of ["items"]. *)
Definition list_shoes (brand : option string) (featured : option bool)
    (limit : Z) : M handle (list pydict) :=
  docs ← get_documents "shoe" (list_shoes_filter brand featured) limit;
  lift (expose_ids docs).

(** [POST /api/shoes]: the value of ["id"]. *)
Definition create_shoe (payload : ShoeCreate.t) : M handle string :=
  shoe ← lift (Shoe.parse (ShoeCreate.model_dump payload));
  inserted_id ← create_document "shoe" shoe;
  mret inserted_id.

(** [GET /api/brands]: the value of ["items"]. *)
Definition list_brands : M handle (list value) :=
  db ← get;
  brands ← match db with
           | Some d => lift (distinct d "shoe" "brand")
           | None => mret []
           end;
  mret brands.

(** One literal of [demo_items]: the twelve keys of a demo record. *)
Definition demo_item (name brand : string) (price : float) (description : string)
    (images colors : list string) (sizes : list value) (featured : bool)
    (rating : float) (in_stock : bool) (now : datetime) : pydict :=
  <["name" := VStr name]>
  (<["brand" := VStr brand]>
  (<["price" := VFloat price]>
  (<["description" := VStr description]>
  (<["images" := VList (VStr <$> images)]>
  (<["colors" := VList (VStr <$> colors)]>
  (<["sizes" := VList sizes]>
  (<["featured" := VBool featured]>
  (<["rating" := VFloat rating]>
  (<["in_stock" := VBool in_stock]>
  (<["created_at" := VDatetime now]>
  (<["updated_at" := VDatetime now]> ∅))))))))))).

Definition demo_items (now : datetime) : list pydict :=
  [ demo_item "Air Zoom Bolt" "Nike" 139.99
      "Responsive cushioning with a sleek, breathable upper."
      ["https://images.unsplash.com/photo-1542291026-7eec264c27ff?q=80&w=1200&auto=format&fit=crop"]
      ["Black"; "White"; "Volt"]
      [VInt 7; VInt 8; VInt 9; VInt 10; VInt 11; VInt 12]
      true 4.6 true now;
    demo_item "UltraRide Blaze" "Puma" 119.0
      "Lightweight ride with energetic foam for daily training."
      ["https://images.unsplash.com/photo-1525966222134-fcfa99b8ae77?q=80&w=1200&auto=format&fit=crop"]
      ["Red"; "Black"]
      [VInt 6; VInt 7; VInt 8; VInt 9; VInt 10; VInt 11]
      true 4.4 true now;
    demo_item "Air Max Nova" "Nike" 159.5
      "Iconic Air unit comfort remixed for modern lifestyle."
      ["https://images.unsplash.com/photo-1519741497674-611481863552?q=80&w=1200&auto=format&fit=crop"]
      ["Blue"; "White"]
      [VInt 7; VInt 8; VInt 9; VFloat 9.5; VInt 10; VInt 11]
      false 4.7 true now;
    demo_item "RS-Fast Flux" "Puma" 99.99
      "Bold DNA with next-gen cushioning and street-ready looks."
      ["https://images.unsplash.com/photo-1542291020-23006e0e2f87?q=80&w=1200&auto=format&fit=crop"]
      ["White"; "Teal"]
      [VInt 6; VInt 7; VInt 8; VInt 9; VInt 10]
      false 4.2 true now ].

(** What [seed_demo_data] returns: [{"message": "Already seeded", "count":
    count}] or [{"inserted": n}]. *)
Inductive seed_reply :=
| AlreadySeeded (count : nat)
| Inserted (inserted : nat).

(** [POST /api/seed]; [now] is the reading of the clock. *)
Definition seed_demo_data (now : datetime) : M handle seed_reply :=
  db ← get;
  match db with
  | None => raise (HTTPException 500 "Database not configured")
  | Some d =>
      count ← lift (count_documents d "shoe");
      if (0 <? count)%nat then mret (AlreadySeeded count)
      else
        inserted_ids ← call (insert_many "shoe" (demo_items now));
        mret (Inserted (length inserted_ids))
  end.

(** ** FastAPI: from a handler's outcome to the HTTP response *)

Inductive http_response (A : Type) :=
| Reply (status_code : Z) (content : A)
| ErrorReply (status_code : Z) (detail : string).
Arguments Reply {A} status_code content.
Arguments ErrorReply {A} status_code detail.

Definition status {A} (r : http_response A) : Z :=
  match r with
  | Reply status_code _ => status_code
  | ErrorReply status_code _ => status_code
  end.

(** An [HTTPException] becomes the response it describes; any other
    exception that leaves a handler is an internal server error. The
    encoding of the content as JSON, which fails on a float that is not
    finite, is not part of this development: a [Reply] is the response up
    to that encoding. *)
Definition respond {A} (success : Z) (r : result A) : http_response A :=
  match r with
  | Ok content => Reply success content
  | Raise (HTTPException status_code detail) => ErrorReply status_code detail
  | Raise _ => ErrorReply 500 "Internal Server Error"
  end.

Definition route {A} (success : Z) (handler : M handle A) (db : handle)
  : http_response A * handle :=
  let '(r, db') := handler db in (respond success r, db').

(** The query parameters of [GET /api/shoes], as sent. *)
Record shoes_query := mkQuery {
  q_brand : option string;
  q_featured : option bool;
  q_limit : option Z
}.

Definition get_test (environ : gmap string string) (db : handle)
  : http_response pydict :=
  respond 200 (test_database environ db).

Definition get_api_shoes (q : shoes_query) : handle -> http_response (list pydict) * handle :=
  route 200 (list_shoes (q_brand q) (q_featured q) (default 50%Z (q_limit q))).

(** The body is validated against [ShoeCreate] before the handler runs:
    a body that does not validate is answered with 422. *)
Definition post_api_shoes (body : pydict) (db : handle)
  : http_response string * handle :=
  match ShoeCreate.parse body with
  | None => (ErrorReply 422 "Unprocessable Entity", db)
  | Some payload => route 201 (create_shoe payload) db
  end.

Definition get_api_brands : handle -> http_response (list value) * handle :=
  route 200 list_brands.

Definition post_api_seed (now : datetime) : handle -> http_response seed_reply * handle :=
  route 200 (seed_demo_data now).

(** ** Sample stores and requests *)

Definition empty_store : Database := mkDatabase "shop" None ∅ 0.

Definition down_store : Database :=
  mkDatabase "shop" (Some "No servers found yet") ∅ 0.

Definition noon : datetime := mkDatetime 1700000000000000.

Definition later : datetime := mkDatetime 1700000000000001.

(** The store after one seeding of [empty_store]. *)
Definition seeded_store : Database :=
  default empty_store (snd (post_api_seed noon (Some empty_store))).

(** A body whose price is negative. *)
Definition negative_price_body : pydict :=
  <["name" := VStr "Runner"]>
  (<["brand" := VStr "Nike"]>
  (<["price" := VFloat (-1)]> ∅)).

(** A body whose rating is above 5. *)
Definition high_rating_body : pydict :=
  <["name" := VStr "Runner"]>
  (<["brand" := VStr "Nike"]>
  (<["price" := VFloat 80]>
  (<["rating" := VFloat 7]> ∅))).

(** A body without price. *)
Definition missing_price_body : pydict :=
  <["name" := VStr "Runner"]>
  (<["brand" := VStr "Nike"]> ∅).

(** A body whose name is the empty string. *)
Definition nameless_body : pydict :=
  <["name" := VStr ""]>
  (<["brand" := VStr "Nike"]>
  (<["price" := VInt 10]> ∅)).

(** A body with every field. *)
Definition full_body : pydict :=
  <["name" := VStr "Court Classic"]>
  (<["brand" := VStr "Adidas"]>
  (<["price" := VFloat 74.5]>
  (<["description" := VStr "Leather low-top."]>
  (<["images" := VList []]>
  (<["colors" := VList [VStr "White"]]>
  (<["sizes" := VList [VInt 8; VFloat 8.5]]>
  (<["featured" := VBool true]>
  (<["rating" := VFloat 4.5]>
  (<["in_stock" := VBool false]> ∅))))))))).

(** ** Observations used in the statements *)

(** The records a response carries: none when the request failed. *)
Definition returned {A} (r : http_response (list A)) : list A :=
  match r with
  | Reply _ items => items
  | ErrorReply _ _ => []
  end.

(** The shoe records behind a handle. *)
Definition shoes_of (db : handle) : list pydict :=
  match db with
  | Some d => collection d "shoe"
  | None => []
  end.

(** The document carries an [ObjectId] as its [_id]. *)
Definition has_object_id (doc : pydict) : bool :=
  match doc !! "_id" with
  | Some (VObjectId _) => true
  | _ => false
  end.

(** Every document of collection [c] is stored under an [ObjectId]: the
    state of a collection that is only written by inserts of documents
    without [_id]. *)
Definition ids_assigned (d : Database) (c : string) : bool :=
  forallb has_object_id (collection d c).

(** A store holding one record that is not a demo record. *)
Definition other_store : Database :=
  mkDatabase "shop" None {[ "shoe" := [ {[ "brand" := VStr "Asics" ]} ] ]} 7.

(** The [Shoe] built from the fields of a request model. *)
Definition to_shoe (payload : ShoeCreate.t) : Shoe.t :=
  Shoe.mk (ShoeCreate.name payload) (ShoeCreate.brand payload)
    (ShoeCreate.price payload) (ShoeCreate.description payload)
    (ShoeCreate.images payload) (ShoeCreate.colors payload)
    (ShoeCreate.sizes payload) (ShoeCreate.featured payload)
    (ShoeCreate.rating payload) (ShoeCreate.in_stock payload).

(** What [ShoeCreate.parse] makes of [full_body]. *)
Definition full_payload : ShoeCreate.t :=
  ShoeCreate.mk "Court Classic" "Adidas" 74.5 (Some "Leather low-top.") []
    ["White"] [8%float; 8.5%float] true (Some 4.5%float) false.

(** ** The other routes and schemas *)

(** [GET /] *)
Definition read_root : pydict :=
  {[ "message" := VStr "Shoe Store Backend Running" ]}.

(** [GET /api/hello] *)
Definition hello : pydict :=
  {[ "message" := VStr "Hello from the backend API!" ]}.

(** ** Sequences of requests *)

(** [POST /api/shoes] once the body has been validated into the request
    model: what the application does with [payload]. *)
Definition post_api_shoes_validated (payload : ShoeCreate.t)
  : handle -> http_response string * handle :=
  route 201 (create_shoe payload).

(** One request to the application that reaches a handler; a create
    request is given by its request model (a body that fails request
    validation reaches no handler). *)
Inductive api_call :=
| CallRoot
| CallHello
| CallTest (environ : gmap string string)
| CallListShoes (q : shoes_query)
| CallCreateShoe (payload : ShoeCreate.t)
| CallListBrands
| CallSeed (now : datetime).

(** The handle after the request was served. *)
Definition serve (db : handle) (c : api_call) : handle :=
  match c with
  | CallRoot | CallHello | CallTest _ => db
  | CallListShoes q => snd (get_api_shoes q db)
  | CallCreateShoe payload => snd (post_api_shoes_validated payload db)
  | CallListBrands => snd (get_api_brands db)
  | CallSeed now => snd (post_api_seed now db)
  end.

(** The record has text under [name] and [brand], a price that is at least
    0 and a rating that is null or between 0 and 5. *)
Definition keeps_bounds (doc : pydict) : bool :=
  match doc !! "name", doc !! "brand", doc !! "price" with
  | Some (VStr _), Some (VStr _), Some (VFloat p) =>
      (0 <=? p)%float
      && match doc !! "rating" with
         | Some VNone => true
         | Some (VFloat r) => (0 <=? r)%float && (r <=? 5)%float
         | _ => false
         end
  | _, _, _ => false
  end.

(** Every shoe record keeps the bounds. *)
Definition shoes_keep_bounds (d : Database) : bool :=
  forallb keeps_bounds (collection d "shoe").

(** A request model whose price is negative. *)
Definition negative_price_payload : ShoeCreate.t :=
  ShoeCreate.mk "Runner" "Nike" (-1) None [] [] [] false None true.

(** A store that cannot be reached, with a long error message. *)
Definition timeout_store : Database :=
  mkDatabase "shop"
    (Some "localhost:27017: [Errno 111] Connection refused, Timeout: 30s, Topology Description: unknown")
    ∅ 0.

(** The state of a store that is written through this application only. *)
Definition store_inv (d0 d : Database) : Prop :=
  db_fault d = db_fault d0 /\
  ids_assigned d "shoe" = true /\
  shoes_keep_bounds d = true /\
  collection d0 "shoe" `prefix_of` collection d "shoe".

(** * Properties *)

(** ** Values *)

Lemma value_ind_list (P : value -> Prop) :
  P VNone ->
  (forall b, P (VBool b)) ->
  (forall z, P (VInt z)) ->
  (forall f, P (VFloat f)) ->
  (forall s, P (VStr s)) ->
  (forall l, Forall P l -> P (VList l)) ->
  (forall t, P (VDatetime t)) ->
  (forall o, P (VObjectId o)) ->
  forall v, P v.
Proof.
  intros HNone HBool HInt HFloat HStr HList HDate HOid.
  fix IH 1. intros [ | b | z | f | s | l | t | o].
  - exact HNone.
  - apply HBool.
  - apply HInt.
  - apply HFloat.
  - apply HStr.
  - apply HList. induction l as [ | v l IHl]; constructor; [apply IH | exact IHl].
  - apply HDate.
  - apply HOid.
Qed.

Lemma value_eqb_eq (a b : value) : value_eqb a b = true <-> a = b.
Proof.
  revert b. induction a as [ | x | x | x | x | l IHl | [x] | [x]] using value_ind_list;
    intros [ | y | y | y | y | l' | [y] | [y]]; simpl;
    try (split; [discriminate | intros [=]]); try tauto.
  - rewrite Bool.eqb_true_iff. split; [intros -> | intros [=]]; done.
  - rewrite Z.eqb_eq. split; [intros -> | intros [=]]; done.
  - rewrite FloatAxioms.Leibniz.eqb_spec. split; [intros -> | intros [=]]; done.
  - rewrite String.eqb_eq. split; [intros -> | intros [=]]; done.
  - revert l'. induction IHl as [ | v l Hv _ IH]; intros [ | v' l'];
      try (split; [discriminate | intros [=]]); try tauto.
    rewrite andb_true_iff, Hv, IH.
    split; [intros [-> [= ->]] | intros [= -> ->]]; done.
  - rewrite Z.eqb_eq. split; [intros -> | intros [=]]; done.
  - rewrite N.eqb_eq. split; [intros -> | intros [=]]; done.
Qed.

Lemma value_eqb_refl (a : value) : value_eqb a a = true.
Proof. by apply value_eqb_eq. Qed.

(** ** Lists and strings *)

Lemma elem_of_dedup (v : value) (l : list value) : v ∈ dedup l <-> v ∈ l.
Proof.
  induction l as [ | a l IH]; simpl; [done | ].
  rewrite !elem_of_cons, list_elem_of_filter, IH. split.
  - intros [-> | [_ Hin]]; auto.
  - intros [-> | Hin]; [by left | ].
    destruct (value_eqb a v) eqn:E.
    + left. symmetry. by apply value_eqb_eq.
    + right. by split.
Qed.

Lemma NoDup_dedup (l : list value) : NoDup (dedup l).
Proof.
  induction l as [ | a l IH]; simpl; constructor.
  - rewrite list_elem_of_filter, value_eqb_refl. simpl. tauto.
  - by apply NoDup_filter.
Qed.

Lemma length_str_prefix (n : nat) (s : string) :
  String.length (str_prefix n s) <= n.
Proof.
  revert s. induction n as [ | n IH]; intros [ | c s]; simpl; try lia.
  specialize (IH s). lia.
Qed.

Lemma matches_spec (flt doc : pydict) :
  matches flt doc = true <-> forall k v, flt !! k = Some v -> doc !! k = Some v.
Proof.
  unfold matches. rewrite forallb_forall. split.
  - intros H k v Hk.
    specialize (H (k, v)). simpl in H.
    destruct (doc !! k) as [w | ].
    + f_equal. symmetry. apply value_eqb_eq, H.
      by apply list_elem_of_In, elem_of_map_to_list.
    + discriminate H. by apply list_elem_of_In, elem_of_map_to_list.
  - intros H [k v] Hin. simpl.
    apply list_elem_of_In, elem_of_map_to_list in Hin.
    rewrite (H k v Hin). apply value_eqb_refl.
Qed.

(** ** The handler monad *)

Ltac run :=
  unfold route, mbind, M_bind, mret, M_ret, get, lift, raise, call, modify,
    try_except in *; simpl in *.

Lemma reach_ok {A} (d : Database) (a : A) :
  db_fault d = None -> reach d a = Ok a.
Proof. unfold reach. by intros ->. Qed.

Lemma reach_fault {A} (d : Database) (a : A) (msg : string) :
  db_fault d = Some msg -> reach d a = Raise (PyMongoError msg).
Proof. unfold reach. by intros ->. Qed.

(** ** The loop of [list_shoes] *)

Lemma expose_ids_length (docs items : list pydict) :
  expose_ids docs = Ok items -> length items = length docs.
Proof.
  revert items. induction docs as [ | d docs IH]; simpl; intros items.
  - by intros [= <-].
  - destruct (expose_id d); [ | discriminate].
    destruct (expose_ids docs); [ | discriminate].
    intros [= <-]. simpl. f_equal. by apply IH.
Qed.

Lemma expose_ids_Forall2 (docs items : list pydict) :
  expose_ids docs = Ok items ->
  Forall2 (fun d r => expose_id d = Ok r) docs items.
Proof.
  revert items. induction docs as [ | d docs IH]; simpl; intros items.
  - intros [= <-]. constructor.
  - destruct (expose_id d) eqn:E; [ | discriminate].
    destruct (expose_ids docs); [ | discriminate].
    intros [= <-]. constructor; [done | by apply IH].
Qed.

(** A record that went through the loop has no [_id]; when it had one,
    [id] is its rendering. *)
Lemma expose_id_no_native (d r : pydict) :
  expose_id d = Ok r -> r !! "_id" = None.
Proof.
  unfold expose_id. destruct (d !! "_id") as [v | ] eqn:E.
  - destruct (py_str v); [ | discriminate]. intros [= <-].
    apply lookup_delete_eq.
  - by intros [= <-].
Qed.

Lemma expose_id_object_id (d : pydict) (o : ObjectId) :
  d !! "_id" = Some (VObjectId o) ->
  expose_id d = Ok (delete "_id" (<["id" := VStr (str_ObjectId o)]> d)).
Proof. unfold expose_id. by intros ->. Qed.

(** ** List shoes *)

Lemma list_shoes_filter_lookup (brand : option string) (featured : option bool)
    (k : string) (v : value) :
  list_shoes_filter brand featured !! k = Some v <->
  (exists b, k = "brand" /\ brand = Some b /\ b <> "" /\ v = VStr b) \/
  (exists f, k = "featured" /\ featured = Some f /\ v = VBool f).
Proof.
  unfold list_shoes_filter.
  destruct brand as [[ | c b] | ], featured as [f | ]; simpl;
    rewrite ?lookup_insert_Some, ?lookup_empty; naive_solver.
Qed.

Lemma list_shoes_run (brand : option string) (featured : option bool)
    (limit : Z) (d : Database) :
  db_fault d = None ->
  list_shoes brand featured limit (Some d) =
  (expose_ids (take (Z.to_nat limit)
     (filter (fun doc => matches (list_shoes_filter brand featured) doc)
        (collection d "shoe"))), Some d).
Proof.
  intros Hd. unfold list_shoes, get_documents, find. run.
  rewrite (reach_ok d _ Hd). by destruct (expose_ids _).
Qed.

Lemma list_shoes_state (brand : option string) (featured : option bool)
    (limit : Z) (db : handle) :
  snd (list_shoes brand featured limit db) = db.
Proof.
  unfold list_shoes, get_documents, find, reach. run.
  destruct db as [d | ]; [ | done]. simpl.
  destruct (db_fault d); [done | ]. by destruct (expose_ids _).
Qed.

Lemma expose_ids_elem_of (docs items : list pydict) (r : pydict) :
  expose_ids docs = Ok items -> r ∈ items ->
  exists d, d ∈ docs /\ expose_id d = Ok r.
Proof.
  intros H%expose_ids_Forall2 Hr.
  induction H as [ | d r' docs items Hd _ IH].
  - by apply elem_of_nil in Hr.
  - apply elem_of_cons in Hr as [-> | Hr].
    + exists d. split; [by left | done].
    + destruct (IH Hr) as [d' [Hin Hd']]. exists d'. split; [by right | done].
Qed.

(** C3: the filter of list-shoes holds exactly the query parameters that
    were supplied (a brand only when it is a non-empty string), each as an
    equality condition; the response carries at most [limit] records (50
    when no limit is sent, none when the limit is not positive), and every
    record comes from a stored shoe that satisfies each condition of the
    filter. *)
Theorem list_shoes_filter_and_limit (brand : option string)
    (featured : option bool) (limit : option Z) (db : handle) :
  let flt := list_shoes_filter brand featured in
  let response := fst (get_api_shoes (mkQuery brand featured limit) db) in
  (forall k v, flt !! k = Some v <->
     (exists b, k = "brand" /\ brand = Some b /\ b <> "" /\ v = VStr b) \/
     (exists f, k = "featured" /\ featured = Some f /\ v = VBool f)) /\
  length (returned response) <= Z.to_nat (default 50%Z limit) /\
  (forall r, r ∈ returned response ->
     exists d, d ∈ shoes_of db /\ expose_id d = Ok r /\
               forall k v, flt !! k = Some v -> d !! k = Some v).
Proof.
  intros flt response. split; [apply list_shoes_filter_lookup | ].
  subst response. unfold get_api_shoes, route. simpl.
  destruct db as [d | ]; [ | split; [apply Nat.le_0_l | by intros r Hr%elem_of_nil]].
  destruct (db_fault d) as [msg | ] eqn:Hd.
  - unfold list_shoes, get_documents, find. run.
    rewrite (reach_fault d _ msg Hd). simpl.
    split; [apply Nat.le_0_l | by intros r Hr%elem_of_nil].
  - rewrite (list_shoes_run _ _ _ d Hd). simpl.
    destruct (expose_ids _) as [items | e] eqn:E; simpl;
      [ | destruct e; simpl; (split; [apply Nat.le_0_l | by intros r Hr%elem_of_nil])].
    split.
    + rewrite (expose_ids_length _ _ E), length_take. lia.
    + intros r Hr.
      destruct (expose_ids_elem_of _ _ _ E Hr) as [doc [Hdoc Hexp]].
      apply elem_of_take in Hdoc as [i [Hdoc _]].
      apply list_elem_of_lookup_2, list_elem_of_filter in Hdoc as [Hm Hdoc].
      exists doc. split; [done | split; [done | ]].
      apply matches_spec. by apply Is_true_true.
Qed.

(** C10: a brand sent as the empty string puts no brand condition in the
    filter; the request is answered as the same request without brand. *)
Theorem list_shoes_empty_brand (featured : option bool) (limit : option Z)
    (db : handle) :
  list_shoes_filter (Some "") featured !! "brand" = None /\
  list_shoes_filter (Some "") featured = list_shoes_filter None featured /\
  get_api_shoes (mkQuery (Some "") featured limit) db =
  get_api_shoes (mkQuery None featured limit) db.
Proof.
  split; [ | split; reflexivity].
  unfold list_shoes_filter. simpl.
  destruct featured; [ | apply lookup_empty].
  by rewrite lookup_insert_ne, lookup_empty.
Qed.

Lemma has_object_id_spec (doc : pydict) :
  has_object_id doc = true <-> exists o, doc !! "_id" = Some (VObjectId o).
Proof.
  unfold has_object_id. destruct (doc !! "_id") as [[ | | | | | | | o] | ];
    split; try discriminate; try (by intros [o' [=]]).
  by exists o.
Qed.

Lemma expose_ids_assigned (docs : list pydict) :
  Forall (fun doc => has_object_id doc = true) docs ->
  exists items, expose_ids docs = Ok items.
Proof.
  induction 1 as [ | doc docs [o Ho]%has_object_id_spec _ [items IH]]; simpl.
  - by exists [].
  - rewrite (expose_id_object_id doc o Ho), IH. by eexists.
Qed.

(** C4: on a store whose shoe records are stored under the identifiers it
    assigned, every record that a list-shoes response carries has the
    string form of the identifier of a stored record under [id] and has no
    [_id] left; and the records of a response are, one for one and in
    order, the renamed records that the store call selected. *)
Theorem list_shoes_exposes_id (brand : option string) (featured : option bool)
    (limit : option Z) (d : Database) :
  ids_assigned d "shoe" = true ->
  let response := fst (get_api_shoes (mkQuery brand featured limit) (Some d)) in
  Forall (fun r =>
    r !! "_id" = None /\
    exists doc o,
      doc ∈ collection d "shoe" /\
      doc !! "_id" = Some (VObjectId o) /\
      r !! "id" = Some (VStr (str_ObjectId o)) /\
      r = delete "_id" (<["id" := VStr (str_ObjectId o)]> doc))
    (returned response) /\
  forall status_code items,
    response = Reply status_code items ->
    Forall2 (fun doc r =>
      exists o, doc !! "_id" = Some (VObjectId o) /\
                r = delete "_id" (<["id" := VStr (str_ObjectId o)]> doc))
      (take (Z.to_nat (default 50%Z limit))
         (filter (fun doc => matches (list_shoes_filter brand featured) doc)
            (collection d "shoe")))
      items.
Proof.
  intros Hids response. subst response.
  unfold get_api_shoes, route. simpl.
  destruct (db_fault d) as [msg | ] eqn:Hd.
  { unfold list_shoes, get_documents, find. run.
    rewrite (reach_fault d _ msg Hd). simpl. split; [constructor | done]. }
  rewrite (list_shoes_run _ _ _ d Hd).
  set (docs := take _ _).
  assert (Hdocs : Forall (fun doc => has_object_id doc = true
                                     /\ doc ∈ collection d "shoe") docs).
  { apply Forall_take, Forall_forall. intros doc [_ Hin]%list_elem_of_filter.
    split; [ | done]. unfold ids_assigned in Hids.
    rewrite forallb_forall in Hids. by apply Hids, list_elem_of_In. }
  destruct (expose_ids_assigned docs) as [items E].
  { eapply Forall_impl; [exact Hdocs | ]. by intros doc [H _]. }
  rewrite E. simpl. rewrite Forall_forall in Hdocs. split.
  - apply Forall_forall. intros r Hr.
    destruct (expose_ids_elem_of _ _ _ E Hr) as [doc [Hdoc Hexp]].
    destruct (Hdocs doc Hdoc) as [[o Ho]%has_object_id_spec Hin].
    split; [by eapply expose_id_no_native | ].
    exists doc, o. rewrite (expose_id_object_id doc o Ho) in Hexp.
    injection Hexp as <-.
    split; [done | split; [done | split; [ | done]]].
    by rewrite lookup_delete_ne, lookup_insert_eq.
  - intros status_code items' [= _ <-].
    apply expose_ids_Forall2 in E.
    clear -E Hdocs. induction E as [ | doc r docs items Hexp _ IH]; constructor.
    + destruct (Hdocs doc) as [[o Ho]%has_object_id_spec _]; [by left | ].
      exists o. split; [done | ].
      rewrite (expose_id_object_id doc o Ho) in Hexp. by injection Hexp.
    + apply IH. intros doc' Hin. apply Hdocs. by right.
Qed.

Lemma list_shoes_exposes_id_witness :
  let response :=
    fst (get_api_shoes (mkQuery (Some "Nike") None (Some 1%Z)) (Some seeded_store)) in
  Forall (fun r =>
    r !! "_id" = None /\
    exists doc o,
      doc ∈ collection seeded_store "shoe" /\
      doc !! "_id" = Some (VObjectId o) /\
      r !! "id" = Some (VStr (str_ObjectId o)) /\
      r = delete "_id" (<["id" := VStr (str_ObjectId o)]> doc))
    (returned response) /\
  forall status_code items,
    response = Reply status_code items ->
    Forall2 (fun doc r =>
      exists o, doc !! "_id" = Some (VObjectId o) /\
                r = delete "_id" (<["id" := VStr (str_ObjectId o)]> doc))
      (take (Z.to_nat (default 50%Z (Some 1%Z)))
         (filter (fun doc => matches (list_shoes_filter (Some "Nike") None) doc)
            (collection seeded_store "shoe")))
      items.
Proof.
  apply (list_shoes_exposes_id (Some "Nike") None (Some 1%Z) seeded_store).
  vm_compute. reflexivity.
Defined.

(** ** Diagnostics *)

Lemma get_test_replies (environ : gmap string string) (db : handle) :
  exists response, get_test environ db = Reply 200 response.
Proof.
  unfold get_test, test_database, list_collection_names, reach.
  destruct db as [d | ]; [destruct (db_fault d) as [msg | ] | ]; run;
    by eexists.
Qed.

(** C5: the diagnostics handler returns for every environment and every
    state of the store, and the response has status 200: an unset handle is
    reported as not initialized; a failing [list_collection_names] is
    reported with the first 50 characters of the error; otherwise the store
    is reported connected with the first 10 collection names. *)
Theorem test_database_never_fails (environ : gmap string string) (db : handle) :
  exists response,
    test_database environ db = Ok response /\
    get_test environ db = Reply 200 response /\
    match db with
    | None =>
        response !! "database" = Some (VStr "⚠️  Available but not initialized")
    | Some d =>
        match db_fault d with
        | Some msg =>
            response !! "database" =
              Some (VStr ("⚠️  Connected but Error: " +:+ str_prefix 50 msg)) /\
            String.length (str_prefix 50 msg) <= 50
        | None =>
            response !! "database" = Some (VStr "✅ Connected & Working") /\
            response !! "connection_status" = Some (VStr "Connected") /\
            exists names,
              list_collection_names d = Ok names /\
              response !! "collections" = Some (VList (VStr <$> take 10 names)) /\
              length (take 10 names) <= 10
        end
    end.
Proof.
  unfold get_test, test_database, list_collection_names, reach.
  destruct db as [d | ]; [destruct (db_fault d) as [msg | ] | ]; run;
    eexists; (split; [reflexivity | split; [reflexivity | ]]).
  - split; [by simplify_map_eq | exact (length_str_prefix 50 msg)].
  - split; [by simplify_map_eq | split; [by simplify_map_eq | ]].
    eexists. split; [reflexivity | split; [by simplify_map_eq | ]].
    rewrite length_take. lia.
  - by simplify_map_eq.
Qed.

(** ** Seeding *)

Lemma collection_insert_many (c : string) (docs : list pydict) (d d' : Database)
    (ids : list value) :
  insert_many c docs d = (Ok ids, d') ->
  collection d' c = collection d c ++ assign_ids (next_oid d) docs /\
  (forall c', c' <> c -> collection d' c' = collection d c') /\
  db_fault d' = None /\
  length ids = length docs.
Proof.
  unfold insert_many. destruct (db_fault d); [discriminate | ].
  intros [= <- <-]. unfold collection. simpl.
  split; [by rewrite lookup_insert_eq | ].
  split; [intros c' Hc; by rewrite lookup_insert_ne | ].
  split; [done | ].
  rewrite length_map. clear. generalize (next_oid d).
  induction docs as [ | doc docs IH]; intros oid; simpl; [done | by rewrite IH].
Qed.

Lemma seed_when_not_empty (now : datetime) (d : Database) :
  db_fault d = None ->
  collection d "shoe" <> [] ->
  seed_demo_data now (Some d)
    = (Ok (AlreadySeeded (length (collection d "shoe"))), Some d).
Proof.
  intros Hd Hne. unfold seed_demo_data, count_documents. run.
  rewrite (reach_ok d _ Hd).
  by destruct (collection d "shoe").
Qed.

(** C2: seeding a reachable store whose shoe collection is empty inserts
    the four demo records, each with [created_at] and [updated_at] set to
    the time of the call, and reports [inserted: 4]; a second call reports
    the count 4 and leaves the store as it was. Whenever the collection is
    not empty, whatever it holds, seeding reports its size and changes
    nothing. *)
Theorem seed_twice (d d' : Database) (now now' now'' : datetime) :
  db_fault d = None ->
  collection d "shoe" = [] ->
  db_fault d' = None ->
  collection d' "shoe" <> [] ->
  (exists d1,
     post_api_seed now (Some d) = (Reply 200 (Inserted 4), Some d1) /\
     collection d1 "shoe" = assign_ids (next_oid d) (demo_items now) /\
     length (collection d1 "shoe") = 4 /\
     Forall (fun r => r !! "created_at" = Some (VDatetime now) /\
                      r !! "updated_at" = Some (VDatetime now))
       (collection d1 "shoe") /\
     post_api_seed now' (Some d1) = (Reply 200 (AlreadySeeded 4), Some d1)) /\
  post_api_seed now'' (Some d')
    = (Reply 200 (AlreadySeeded (length (collection d' "shoe"))), Some d').
Proof.
  intros Hd Hempty Hd' Hne. split.
  - destruct (insert_many "shoe" (demo_items now) d) as [r d1] eqn:E.
    assert (exists ids, r = Ok ids) as [ids ->].
    { revert E. unfold insert_many. rewrite Hd. intros [= <- _]. by eexists. }
    destruct (collection_insert_many _ _ _ _ _ E) as (Hc & _ & Hd1 & Hlen).
    rewrite Hempty in Hc. simpl in Hc.
    exists d1. split; [ | split; [ | split; [ | split]]].
    + unfold post_api_seed, seed_demo_data, count_documents. run.
      rewrite (reach_ok d _ Hd), Hempty. simpl. rewrite E. simpl.
      by rewrite Hlen.
    + done.
    + by rewrite Hc.
    + rewrite Hc. repeat constructor; reflexivity.
    + unfold post_api_seed, route.
      rewrite (seed_when_not_empty now' d1 Hd1); [by rewrite Hc | ].
      by rewrite Hc.
  - unfold post_api_seed, route.
    by rewrite (seed_when_not_empty now'' d' Hd' Hne).
Qed.

Lemma seed_twice_witness :
  (exists d1,
     post_api_seed noon (Some empty_store) = (Reply 200 (Inserted 4), Some d1) /\
     collection d1 "shoe" = assign_ids (next_oid empty_store) (demo_items noon) /\
     length (collection d1 "shoe") = 4 /\
     Forall (fun r => r !! "created_at" = Some (VDatetime noon) /\
                      r !! "updated_at" = Some (VDatetime noon))
       (collection d1 "shoe") /\
     post_api_seed later (Some d1) = (Reply 200 (AlreadySeeded 4), Some d1)) /\
  post_api_seed later (Some other_store)
    = (Reply 200 (AlreadySeeded (length (collection other_store "shoe"))),
       Some other_store).
Proof.
  apply (seed_twice empty_store other_store noon later later);
    vm_compute; (reflexivity || discriminate).
Defined.

(** ** List brands *)

Lemma elem_of_brand_values (v : value) (docs : list pydict) (key : string) :
  v ∈ concat (map (field_values key) docs) <->
  exists doc, doc ∈ docs /\ v ∈ field_values key doc.
Proof.
  rewrite list_elem_of_In, in_concat. split.
  - intros [l [[doc [<- Hdoc]]%in_map_iff Hv]].
    exists doc. by rewrite !list_elem_of_In.
  - intros [doc [Hdoc Hv]]. exists (field_values key doc).
    rewrite <- !list_elem_of_In. split; [ | done].
    apply list_elem_of_In, in_map_iff. exists doc.
    by rewrite <- list_elem_of_In.
Qed.

(** C6, as the code has it: with an unset handle list-brands answers the
    empty list; with a reachable store it answers the brand values of the
    shoe records, each once; a store call that fails is not caught and the
    request fails with an internal server error. *)
Theorem list_brands_distinct (db : handle) :
  match db with
  | None => get_api_brands db = (Reply 200 [], db)
  | Some d =>
      match db_fault d with
      | None =>
          exists items,
            get_api_brands db = (Reply 200 items, db) /\
            NoDup items /\
            forall v, v ∈ items <->
                      exists doc, doc ∈ collection d "shoe" /\
                                  v ∈ field_values "brand" doc
      | Some msg =>
          get_api_brands db = (ErrorReply 500 "Internal Server Error", db)
      end
  end.
Proof.
  unfold get_api_brands, list_brands, distinct, reach.
  destruct db as [d | ]; [ | done]. run.
  destruct (db_fault d) as [msg | ]; [done | ]. simpl.
  eexists. split; [reflexivity | ]. split; [apply NoDup_dedup | ].
  intros v. by rewrite elem_of_dedup, elem_of_brand_values.
Qed.

(** C6, as stated, fails: the store call of list-brands is not guarded, a
    store that cannot be reached makes the request fail with status 500. *)
Lemma list_brands_unreachable_store :
  get_api_brands (Some down_store)
    = (ErrorReply 500 "Internal Server Error", Some down_store).
Proof. reflexivity. Qed.

(** ** Server errors *)

Lemma create_shoe_no_http_exception (payload : ShoeCreate.t) (db : handle)
    (status_code : Z) (detail : string) :
  fst (create_shoe payload db) <> Raise (HTTPException status_code detail).
Proof.
  unfold create_shoe, create_document, insert_one, insert_many, Shoe.parse. run.
  repeat (case_match; simpl in *; simplify_eq; try done).
Qed.

Lemma list_shoes_no_http_exception (brand : option string)
    (featured : option bool) (limit : Z) (db : handle) (status_code : Z)
    (detail : string) :
  fst (list_shoes brand featured limit db) <> Raise (HTTPException status_code detail).
Proof.
  unfold list_shoes, get_documents, find, reach. run.
  destruct db as [d | ]; [ | done]. simpl.
  destruct (db_fault d); [done | ].
  destruct (expose_ids _) as [items | e] eqn:E; simpl; [done | ].
  intros [= ->]. revert E. generalize (take (Z.to_nat limit)
    (filter (fun doc => matches (list_shoes_filter brand featured) doc)
       (collection d "shoe"))).
  intros docs. induction docs as [ | doc docs IH]; simpl; [done | ].
  unfold expose_id at 1.
  repeat (case_match; simpl in *; simplify_eq; try done).
Qed.

Lemma list_brands_no_http_exception (db : handle) (status_code : Z)
    (detail : string) :
  fst (list_brands db) <> Raise (HTTPException status_code detail).
Proof.
  unfold list_brands, distinct, reach. run.
  repeat (case_match; simpl in *; simplify_eq; try done).
Qed.

Lemma seed_with_handle (now : datetime) (d : Database) :
  (exists reply d', post_api_seed now (Some d) = (Reply 200 reply, Some d')) \/
  post_api_seed now (Some d)
    = (ErrorReply 500 "Internal Server Error", Some d).
Proof.
  unfold post_api_seed, seed_demo_data, count_documents, insert_many, reach. run.
  destruct (db_fault d) as [msg | ] eqn:Hd; simpl; [by right | left].
  destruct (collection d "shoe"); simpl; rewrite ?Hd; simpl; by do 2 eexists.
Qed.

(** C7, as the code has it: seed answers with the server-configuration
    error, status 500 and detail "Database not configured", exactly when
    the store handle is unset; it is the only handler that raises an HTTP
    error of its own, and with an unset handle list-brands and diagnostics
    still answer 200. *)
Theorem seed_configuration_error (now : datetime) (db : handle) :
  (fst (post_api_seed now db) = ErrorReply 500 "Database not configured"
   <-> db = None) /\
  (forall status_code detail,
     fst (seed_demo_data now db) = Raise (HTTPException status_code detail) <->
     db = None /\ status_code = 500%Z /\ detail = "Database not configured") /\
  (forall status_code detail,
     fst (list_brands db) <> Raise (HTTPException status_code detail)) /\
  (forall brand featured limit status_code detail,
     fst (list_shoes brand featured limit db)
       <> Raise (HTTPException status_code detail)) /\
  (forall payload status_code detail,
     fst (create_shoe payload db) <> Raise (HTTPException status_code detail)) /\
  (forall environ, status (get_test environ db) = 200%Z) /\
  status (fst (get_api_brands None)) = 200%Z.
Proof.
  split; [ | split; [ | split; [ | split; [ | split; [ | split]]]]].
  - split.
    + destruct db as [d | ]; [ | done].
      destruct (seed_with_handle now d) as [(reply & d' & ->) | ->]; discriminate.
    + by intros ->.
  - intros status_code detail. split.
    + destruct db as [d | ]; [ | by intros [= <- <-]].
      unfold seed_demo_data, count_documents, insert_many, reach. run.
      repeat (case_match; simpl in *; simplify_eq; try done).
    + by intros (-> & -> & ->).
  - intros. apply list_brands_no_http_exception.
  - intros. apply list_shoes_no_http_exception.
  - intros. apply create_shoe_no_http_exception.
  - intros environ.
    destruct (get_test_replies environ db) as [response ->].
    reflexivity.
  - reflexivity.
Qed.

(** C7, as stated, fails: a store that cannot be reached makes seed fail
    without the configuration error, and list-brands fails with a server
    error as well. *)
Lemma seed_not_the_only_server_error :
  fst (post_api_seed noon (Some down_store))
    = ErrorReply 500 "Internal Server Error" /\
  status (fst (get_api_brands (Some down_store))) = 500%Z.
Proof. split; reflexivity. Qed.

(** ** Create shoe *)

Lemma mapM_as_str (l : list string) : mapM as_str (VStr <$> l) = Some l.
Proof.
  induction l as [ | s l IH]; [done | ].
  rewrite fmap_cons. cbn. by rewrite IH.
Qed.

Lemma mapM_as_float (l : list float) : mapM as_float (VFloat <$> l) = Some l.
Proof.
  induction l as [ | f l IH]; [done | ].
  rewrite fmap_cons. cbn. by rewrite IH.
Qed.

Lemma Shoe_typed_model_dump (payload : ShoeCreate.t) :
  Shoe.typed (ShoeCreate.model_dump payload) = Some (to_shoe payload).
Proof.
  destruct payload as [name brand price description images colors sizes
                         featured rating in_stock].
  unfold Shoe.typed, ShoeCreate.model_dump, required, defaulted, to_shoe.
  simplify_map_eq. simpl.
  rewrite !mapM_as_str, mapM_as_float. simpl.
  by destruct description, rating.
Qed.

(** The handler validates the dumped request model against [Shoe]: the
    types are right by construction, only the bounds can fail. *)
Lemma Shoe_parse_model_dump (payload : ShoeCreate.t) :
  Shoe.parse (ShoeCreate.model_dump payload) =
  if Shoe.ge0 (ShoeCreate.price payload)
     && Shoe.ge0_le5 (ShoeCreate.rating payload)
  then Ok (to_shoe payload)
  else Raise (ValidationError "validation error for Shoe").
Proof. unfold Shoe.parse. by rewrite Shoe_typed_model_dump. Qed.

Lemma Shoe_model_dump_no_id (shoe : Shoe.t) : Shoe.model_dump shoe !! "_id" = None.
Proof. unfold Shoe.model_dump. by simplify_map_eq. Qed.

Lemma create_document_run (shoe : Shoe.t) (d : Database) :
  db_fault d = None ->
  exists d',
    create_document "shoe" shoe (Some d)
      = (Ok (str_ObjectId (mkObjectId (next_oid d))), Some d') /\
    collection d' "shoe" =
      collection d "shoe"
        ++ [<["_id" := VObjectId (mkObjectId (next_oid d))]> (Shoe.model_dump shoe)] /\
    (forall c, c <> "shoe" -> collection d' c = collection d c) /\
    db_fault d' = None.
Proof.
  intros Hd.
  destruct (insert_many "shoe" [Shoe.model_dump shoe] d) as [r d'] eqn:E.
  assert (exists ids, r = Ok ids) as [ids ->].
  { revert E. unfold insert_many. rewrite Hd. intros [= <- _]. by eexists. }
  destruct (collection_insert_many _ _ _ _ _ E) as (Hc & Hother & Hd' & _).
  simpl in Hc. unfold assign_id in Hc. rewrite Shoe_model_dump_no_id in Hc.
  exists d'. split; [ | done].
  revert E. unfold create_document, insert_one, insert_many. run.
  rewrite Hd. intros [= <- <-]. simpl.
  unfold assign_id, inserted_id. rewrite Shoe_model_dump_no_id.
  by rewrite lookup_insert_eq.
Qed.

Lemma create_document_fault (shoe : Shoe.t) (d : Database) (msg : string) :
  db_fault d = Some msg ->
  create_document "shoe" shoe (Some d) = (Raise (PyMongoError msg), Some d).
Proof.
  intros Hd. unfold create_document, insert_one, insert_many. run.
  by rewrite Hd.
Qed.

Lemma create_shoe_run (payload : ShoeCreate.t) (db : handle) :
  create_shoe payload db =
  match Shoe.parse (ShoeCreate.model_dump payload) with
  | Ok shoe => create_document "shoe" shoe db
  | Raise e => (Raise e, db)
  end.
Proof.
  unfold create_shoe. unfold mbind at 1 2, M_bind, lift, mret, M_ret.
  destruct (Shoe.parse _) as [shoe | e]; [ | done].
  by destruct (create_document "shoe" shoe db) as [[id | e] db'].
Qed.

(** The outcomes of [POST /api/shoes]: a body that does not fit the request
    model is answered with 422; a request model that breaks the bounds of
    [Shoe] makes the handler raise and is answered with 500; so is a valid
    one when the store is not there; otherwise one record is stored. *)
Lemma post_api_shoes_cases (body : pydict) (db : handle) :
  (ShoeCreate.parse body = None /\
   post_api_shoes body db = (ErrorReply 422 "Unprocessable Entity", db)) \/
  (exists payload,
     ShoeCreate.parse body = Some payload /\
     Shoe.ge0 (ShoeCreate.price payload)
       && Shoe.ge0_le5 (ShoeCreate.rating payload) = false /\
     post_api_shoes body db = (ErrorReply 500 "Internal Server Error", db)) \/
  (exists payload,
     ShoeCreate.parse body = Some payload /\
     Shoe.ge0 (ShoeCreate.price payload)
       && Shoe.ge0_le5 (ShoeCreate.rating payload) = true /\
     match db with
     | None => True
     | Some d => exists msg, db_fault d = Some msg
     end /\
     post_api_shoes body db = (ErrorReply 500 "Internal Server Error", db)) \/
  (exists payload d d',
     ShoeCreate.parse body = Some payload /\
     Shoe.ge0 (ShoeCreate.price payload)
       && Shoe.ge0_le5 (ShoeCreate.rating payload) = true /\
     db = Some d /\ db_fault d = None /\
     post_api_shoes body db
       = (Reply 201 (str_ObjectId (mkObjectId (next_oid d))), Some d') /\
     collection d' "shoe" =
       collection d "shoe"
         ++ [<["_id" := VObjectId (mkObjectId (next_oid d))]>
               (Shoe.model_dump (to_shoe payload))] /\
     (forall c, c <> "shoe" -> collection d' c = collection d c)).
Proof.
  unfold post_api_shoes.
  destruct (ShoeCreate.parse body) as [payload | ]; [ | by left].
  right. unfold route. rewrite create_shoe_run, Shoe_parse_model_dump.
  destruct (Shoe.ge0 _ && Shoe.ge0_le5 _) eqn:Hvalid.
  - right. destruct db as [d | ].
    + destruct (db_fault d) as [msg | ] eqn:Hd.
      * left. exists payload. rewrite (create_document_fault _ d msg Hd). simpl.
        split; [done | split; [done | split; [by exists msg | done]]].
      * right. destruct (create_document_run (to_shoe payload) d Hd)
          as (d' & -> & Hc & Hother & _).
        exists payload, d, d'. simpl. by repeat split.
    + left. exists payload. by repeat split.
  - left. exists payload. by repeat split.
Qed.

(** A request that is not answered with 201 wrote nothing. *)
Lemma post_api_shoes_failure_no_write (body : pydict) (db : handle) :
  status (fst (post_api_shoes body db)) <> 201%Z ->
  snd (post_api_shoes body db) = db.
Proof.
  destruct (post_api_shoes_cases body db)
    as [[_ ->] | [(p & _ & _ & ->) | [(p & _ & _ & _ & ->)
         | (p & d & d' & _ & _ & _ & _ & -> & _)]]]; simpl; done.
Qed.

(** A body outside the request model, or a request model outside the bounds
    of [Shoe], is refused without a write: with 422 in the first case, with
    500 in the second. *)
Lemma post_api_shoes_invalid (body : pydict) (db : handle) :
  match ShoeCreate.parse body with
  | None => post_api_shoes body db = (ErrorReply 422 "Unprocessable Entity", db)
  | Some payload =>
      Shoe.ge0 (ShoeCreate.price payload)
        && Shoe.ge0_le5 (ShoeCreate.rating payload) = false ->
      post_api_shoes body db = (ErrorReply 500 "Internal Server Error", db)
  end.
Proof.
  destruct (post_api_shoes_cases body db)
    as [[E ->] | [(p & E & Hp & ->) | [(p & E & Hp & _ & ->)
         | (p & d & d' & E & Hp & _ & _ & -> & _)]]]; rewrite E; try done.
  all: intros Hp'; by rewrite Hp in Hp'.
Qed.

(** A body without a required field is a client error. *)
Example missing_price_is_client_error :
  post_api_shoes missing_price_body (Some empty_store)
    = (ErrorReply 422 "Unprocessable Entity", Some empty_store).
Proof. reflexivity. Qed.

(** C1, at a body with a negative price and at one with a rating above 5:
    the request model [ShoeCreate] accepts the body, the handler's [Shoe]
    refuses it, and the request is answered with status 500, not with a
    client error; nothing is written. *)
Theorem create_shoe_negative_price :
  is_Some (ShoeCreate.parse negative_price_body) /\
  post_api_shoes negative_price_body (Some empty_store)
    = (ErrorReply 500 "Internal Server Error", Some empty_store) /\
  is_Some (ShoeCreate.parse high_rating_body) /\
  post_api_shoes high_rating_body (Some empty_store)
    = (ErrorReply 500 "Internal Server Error", Some empty_store).
Proof. repeat split; (by eexists) || reflexivity. Qed.

(** The outcomes of the handler on a request model. *)
Lemma post_api_shoes_validated_cases (payload : ShoeCreate.t) (db : handle) :
  (post_api_shoes_validated payload db
     = (ErrorReply 500 "Internal Server Error", db) /\
   (Shoe.ge0 (ShoeCreate.price payload)
      && Shoe.ge0_le5 (ShoeCreate.rating payload) = false \/
    db = None \/
    exists d msg, db = Some d /\ db_fault d = Some msg)) \/
  (exists d d',
     Shoe.ge0 (ShoeCreate.price payload)
       && Shoe.ge0_le5 (ShoeCreate.rating payload) = true /\
     db = Some d /\ db_fault d = None /\
     post_api_shoes_validated payload db
       = (Reply 201 (str_ObjectId (mkObjectId (next_oid d))), Some d') /\
     collection d' "shoe" =
       collection d "shoe"
         ++ [<["_id" := VObjectId (mkObjectId (next_oid d))]>
               (Shoe.model_dump (to_shoe payload))] /\
     (forall c, c <> "shoe" -> collection d' c = collection d c) /\
     db_fault d' = None).
Proof.
  unfold post_api_shoes_validated, route.
  rewrite create_shoe_run, Shoe_parse_model_dump.
  destruct (Shoe.ge0 _ && Shoe.ge0_le5 _) eqn:Hvalid; [ | left; auto].
  destruct db as [d | ]; [ | left; auto].
  destruct (db_fault d) as [msg | ] eqn:Hd.
  - left. rewrite (create_document_fault _ d msg Hd). simpl.
    split; [done | ]. right. right. by exists d, msg.
  - right. destruct (create_document_run (to_shoe payload) d Hd)
      as (d' & -> & Hc & Hother & Hd').
    exists d, d'. by repeat split.
Qed.

(** C8: for a request model that keeps the bounds of [Shoe], on a reachable
    store, the response has status 201 and carries the string form of the
    new identifier, and the shoe collection has grown by exactly the new
    record; the other collections are untouched. *)
Theorem create_shoe_inserts_one (payload : ShoeCreate.t) (d : Database) :
  Shoe.ge0 (ShoeCreate.price payload) = true ->
  Shoe.ge0_le5 (ShoeCreate.rating payload) = true ->
  db_fault d = None ->
  exists d',
    post_api_shoes_validated payload (Some d)
      = (Reply 201 (str_ObjectId (mkObjectId (next_oid d))), Some d') /\
    collection d' "shoe" =
      collection d "shoe"
        ++ [<["_id" := VObjectId (mkObjectId (next_oid d))]>
              (Shoe.model_dump (to_shoe payload))] /\
    length (collection d' "shoe") = S (length (collection d "shoe")) /\
    (forall c, c <> "shoe" -> collection d' c = collection d c).
Proof.
  intros Hprice Hrating Hd.
  destruct (post_api_shoes_validated_cases payload (Some d))
    as [[_ [Hp | [Hnone | (d0 & msg & [= <-] & Hmsg)]]]
        | (d0 & d' & _ & [= <-] & _ & Hpost & Hc & Hother & _)].
  - by rewrite Hprice, Hrating in Hp.
  - discriminate Hnone.
  - by rewrite Hd in Hmsg.
  - exists d'. split; [done | split; [done | split; [ | done]]].
    rewrite Hc, length_app. simpl. lia.
Qed.

Lemma create_shoe_inserts_one_witness :
  exists d',
    post_api_shoes_validated full_payload (Some empty_store)
      = (Reply 201 (str_ObjectId (mkObjectId (next_oid empty_store))), Some d') /\
    collection d' "shoe" =
      collection empty_store "shoe"
        ++ [<["_id" := VObjectId (mkObjectId (next_oid empty_store))]>
              (Shoe.model_dump (to_shoe full_payload))] /\
    length (collection d' "shoe") = S (length (collection empty_store "shoe")) /\
    (forall c, c <> "shoe" -> collection d' c = collection empty_store c).
Proof.
  apply (create_shoe_inserts_one full_payload empty_store);
    vm_compute; reflexivity.
Defined.

(** C9, as the code has it: the record stored for a request model that was
    answered with 201 has text under [name] and [brand] (no length is
    required of either), a price that is at least 0, and a rating that is
    absent or between 0 and 5. *)
Theorem created_shoe_invariants (payload : ShoeCreate.t) (db db' : handle)
    (id : string) :
  post_api_shoes_validated payload db = (Reply 201 id, db') ->
  exists d d' record,
    db = Some d /\ db' = Some d' /\
    collection d' "shoe" = collection d "shoe" ++ [record] /\
    record = <["_id" := VObjectId (mkObjectId (next_oid d))]>
               (Shoe.model_dump (to_shoe payload)) /\
    record !! "name" = Some (VStr (ShoeCreate.name payload)) /\
    record !! "brand" = Some (VStr (ShoeCreate.brand payload)) /\
    record !! "price" = Some (VFloat (ShoeCreate.price payload)) /\
    (0 <=? ShoeCreate.price payload)%float = true /\
    match ShoeCreate.rating payload with
    | None => record !! "rating" = Some VNone
    | Some r =>
        record !! "rating" = Some (VFloat r) /\
        (0 <=? r)%float = true /\ (r <=? 5)%float = true
    end.
Proof.
  intros Hpost.
  destruct (post_api_shoes_validated_cases payload db)
    as [[E _] | (d & d' & Hp & -> & _ & E & Hc & _)];
    rewrite E in Hpost; simplify_eq.
  apply andb_true_iff in Hp as [Hprice Hrating].
  exists d, d', (<["_id" := VObjectId (mkObjectId (next_oid d))]>
                   (Shoe.model_dump (to_shoe payload))).
  split; [done | split; [done | split; [done | split; [done | ]]]].
  unfold Shoe.model_dump. simplify_map_eq.
  split; [done | split; [done | split; [done | split; [done | ]]]].
  unfold Shoe.ge0_le5 in Hrating. simpl in *.
  destruct (ShoeCreate.rating payload) as [r | ]; simpl; [ | done].
  apply andb_true_iff in Hrating as [H0 H5]. done.
Qed.

Lemma created_shoe_invariants_witness :
  exists d d' record,
    Some empty_store = Some d /\
    snd (post_api_shoes_validated full_payload (Some empty_store)) = Some d' /\
    collection d' "shoe" = collection d "shoe" ++ [record] /\
    record = <["_id" := VObjectId (mkObjectId (next_oid d))]>
               (Shoe.model_dump (to_shoe full_payload)) /\
    record !! "name" = Some (VStr (ShoeCreate.name full_payload)) /\
    record !! "brand" = Some (VStr (ShoeCreate.brand full_payload)) /\
    record !! "price" = Some (VFloat (ShoeCreate.price full_payload)) /\
    (0 <=? ShoeCreate.price full_payload)%float = true /\
    match ShoeCreate.rating full_payload with
    | None => record !! "rating" = Some VNone
    | Some r =>
        record !! "rating" = Some (VFloat r) /\
        (0 <=? r)%float = true /\ (r <=? 5)%float = true
    end.
Proof.
  apply (created_shoe_invariants full_payload (Some empty_store)
           (snd (post_api_shoes_validated full_payload (Some empty_store)))
           "000000000000000000000000").
  vm_compute. reflexivity.
Defined.

(** C9, as stated, fails: a create request whose name is the empty string
    is admitted, and the stored record has the empty name. *)
Lemma empty_name_admitted :
  exists d' record,
    post_api_shoes nameless_body (Some empty_store)
      = (Reply 201 "000000000000000000000000", Some d') /\
    collection d' "shoe" = [record] /\
    record !! "name" = Some (VStr "").
Proof. do 2 eexists. split; [reflexivity | split; reflexivity]. Qed.

(** ** The identifiers of stored records

    Both writers insert documents without [_id], so a shoe collection that
    is written only by them stays under identifiers of the store. *)

Lemma assign_ids_has_object_id (oid : N) (docs : list pydict) :
  Forall (fun doc => doc !! "_id" = None) docs ->
  Forall (fun doc => has_object_id doc = true) (assign_ids oid docs).
Proof.
  intros H. revert oid.
  induction H as [ | doc docs Hdoc _ IH]; intros oid; simpl; constructor.
  - unfold assign_id, has_object_id. rewrite Hdoc. by rewrite lookup_insert_eq.
  - apply IH.
Qed.

Lemma ids_assigned_Forall (d : Database) (c : string) :
  ids_assigned d c = true <->
  Forall (fun doc => has_object_id doc = true) (collection d c).
Proof.
  unfold ids_assigned. rewrite forallb_forall, Forall_forall.
  split; intros H doc Hdoc; apply H; by apply list_elem_of_In.
Qed.

Lemma post_api_shoes_ids_assigned (body : pydict) (d d' : Database)
    (r : http_response string) :
  ids_assigned d "shoe" = true ->
  post_api_shoes body (Some d) = (r, Some d') ->
  ids_assigned d' "shoe" = true.
Proof.
  intros Hids Hpost.
  destruct (post_api_shoes_cases body (Some d))
    as [[_ E] | [(p & _ & _ & E) | [(p & _ & _ & _ & E)
         | (p & d0 & d1 & _ & _ & [= <-] & _ & E & Hc & _)]]];
    rewrite E in Hpost; simplify_eq; try done.
  apply ids_assigned_Forall. rewrite Hc. apply Forall_app. split.
  - by apply ids_assigned_Forall.
  - constructor; [ | constructor].
    unfold has_object_id. by rewrite lookup_insert_eq.
Qed.

Lemma post_api_seed_ids_assigned (now : datetime) (d d' : Database)
    (r : http_response seed_reply) :
  ids_assigned d "shoe" = true ->
  post_api_seed now (Some d) = (r, Some d') ->
  ids_assigned d' "shoe" = true.
Proof.
  intros Hids. unfold post_api_seed, seed_demo_data, count_documents, reach. run.
  destruct (db_fault d) as [msg | ] eqn:Hd; simpl; [by intros [= _ <-] | ].
  destruct (collection d "shoe") as [ | doc docs] eqn:Hc; simpl;
    [ | by intros [= _ <-]].
  destruct (insert_many "shoe" (demo_items now) d) as [[ids | e] d1] eqn:E;
    simpl; intros [= _ <-].
  - destruct (collection_insert_many _ _ _ _ _ E) as (Hc1 & _).
    apply ids_assigned_Forall. rewrite Hc1, Hc, app_nil_l.
    apply assign_ids_has_object_id. unfold demo_items. repeat constructor.
  - revert E. unfold insert_many. by rewrite Hd.
Qed.

(** ** The scenarios of the specification *)

(** [limit=1] with two matching records returns one record. *)
Example limit_one :
  length (returned (fst (get_api_shoes (mkQuery (Some "Nike") None None)
                           (Some seeded_store)))) = 2 /\
  length (returned (fst (get_api_shoes (mkQuery (Some "Nike") None (Some 1%Z))
                           (Some seeded_store)))) = 1.
Proof. split; vm_compute; reflexivity. Qed.

(** [featured=true] returns only featured records. *)
Example featured_only :
  map (fun r => r !! "featured")
    (returned (fst (get_api_shoes (mkQuery None (Some true) None)
                      (Some seeded_store))))
  = [Some (VBool true); Some (VBool true)].
Proof. vm_compute. reflexivity. Qed.

(** With an unset handle, list-shoes and a valid create fail with 500. *)
Example unset_handle :
  fst (get_api_shoes (mkQuery None None None) None)
    = ErrorReply 500 "Internal Server Error" /\
  post_api_shoes full_body None
    = (ErrorReply 500 "Internal Server Error", None).
Proof. split; vm_compute; reflexivity. Qed.

(** * Further properties of the handlers *)

(** ** List shoes: what the loop keeps *)

Lemma expose_id_fields (d r : pydict) :
  expose_id d = Ok r ->
  (forall k, k <> "_id" -> k <> "id" -> r !! k = d !! k) /\
  (d !! "_id" = None -> r = d).
Proof.
  unfold expose_id. destruct (d !! "_id") as [v | ] eqn:E.
  - destruct (py_str v); [ | discriminate]. intros [= <-].
    split; [ | discriminate].
    intros k Hk Hk'. by rewrite lookup_delete_ne, lookup_insert_ne.
  - by intros [= <-].
Qed.

Lemma returned_shoes_from_store (q : shoes_query) (db : handle) (r : pydict) :
  r ∈ returned (fst (get_api_shoes q db)) ->
  exists d, d ∈ shoes_of db /\ expose_id d = Ok r.
Proof.
  unfold get_api_shoes, route.
  destruct db as [d | ]; [ | by intros Hr%elem_of_nil].
  destruct (db_fault d) as [msg | ] eqn:Hd.
  - unfold list_shoes, get_documents, find. run.
    rewrite (reach_fault d _ msg Hd). simpl. by intros Hr%elem_of_nil.
  - rewrite (list_shoes_run _ _ _ d Hd). simpl.
    destruct (expose_ids _) as [items | e] eqn:E; simpl;
      [ | destruct e; by intros Hr%elem_of_nil].
    intros Hr.
    destruct (expose_ids_elem_of _ _ _ E Hr) as [doc [Hdoc Hexp]].
    apply elem_of_take in Hdoc as [i [Hdoc _]].
    apply list_elem_of_lookup_2, list_elem_of_filter in Hdoc as [_ Hdoc].
    by exists doc.
Qed.

(** X1: every record of a list-shoes response agrees with a stored shoe
    record on every key other than [_id] and [id]; a stored record that has
    no [_id] is returned as it is, without an [id]. *)
Theorem list_shoes_keeps_fields (q : shoes_query) (db : handle) :
  Forall (fun r =>
    exists d, d ∈ shoes_of db /\
      (forall k, k <> "_id" -> k <> "id" -> r !! k = d !! k) /\
      (d !! "_id" = None -> r = d))
    (returned (fst (get_api_shoes q db))).
Proof.
  apply Forall_forall. intros r Hr.
  destruct (returned_shoes_from_store q db r Hr) as [d [Hd Hexp]].
  exists d. split; [done | by apply expose_id_fields].
Qed.

Lemma list_brands_state (db : handle) : snd (list_brands db) = db.
Proof.
  unfold list_brands, distinct, reach. run.
  destruct db as [d | ]; [ | done]. simpl. by destruct (db_fault d).
Qed.

Lemma read_only_handlers (q : shoes_query) (db : handle) :
  snd (get_api_shoes q db) = db /\ snd (get_api_brands db) = db.
Proof.
  split.
  - unfold get_api_shoes, route.
    pose proof (list_shoes_state (q_brand q) (q_featured q)
                  (default 50%Z (q_limit q)) db) as H.
    by destruct (list_shoes _ _ _ db).
  - unfold get_api_brands, route.
    pose proof (list_brands_state db) as H.
    by destruct (list_brands db).
Qed.

(** X2: list-shoes and list-brands never write: whatever the query and
    whatever the outcome, the store is left as it was. *)
Theorem read_handlers_leave_store (q : shoes_query) (db : handle) :
  snd (get_api_shoes q db) = db /\ snd (get_api_brands db) = db.
Proof. exact (read_only_handlers q db). Qed.

(** ** Seeding: its effect on the store *)

Lemma seed_when_empty (now : datetime) (d : Database) :
  db_fault d = None ->
  collection d "shoe" = [] ->
  exists d',
    post_api_seed now (Some d) = (Reply 200 (Inserted 4), Some d') /\
    collection d' "shoe" = assign_ids (next_oid d) (demo_items now) /\
    (forall c, c <> "shoe" -> collection d' c = collection d c) /\
    db_fault d' = None.
Proof.
  intros Hd Hempty.
  destruct (insert_many "shoe" (demo_items now) d) as [r d'] eqn:E.
  assert (exists ids, r = Ok ids) as [ids ->].
  { revert E. unfold insert_many. rewrite Hd. intros [= <- _]. by eexists. }
  destruct (collection_insert_many _ _ _ _ _ E) as (Hc & Hother & Hd' & Hlen).
  rewrite Hempty, app_nil_l in Hc.
  exists d'. split; [ | done].
  unfold post_api_seed, seed_demo_data, count_documents. run.
  rewrite (reach_ok d _ Hd), Hempty. simpl. rewrite E. simpl.
  by rewrite Hlen.
Qed.

Lemma seed_unreachable (now : datetime) (d : Database) (msg : string) :
  db_fault d = Some msg ->
  post_api_seed now (Some d) = (ErrorReply 500 "Internal Server Error", Some d).
Proof.
  intros Hd. unfold post_api_seed, seed_demo_data, count_documents. run.
  by rewrite (reach_fault d _ msg Hd).
Qed.

Lemma seed_guarded (now : datetime) (d : Database) :
  db_fault d = None ->
  collection d "shoe" <> [] ->
  post_api_seed now (Some d)
    = (Reply 200 (AlreadySeeded (length (collection d "shoe"))), Some d).
Proof.
  intros Hd Hne. unfold post_api_seed, route.
  by rewrite (seed_when_not_empty now d Hd Hne).
Qed.

(** X3: seeding writes in one case only. Either the store is left exactly
    as it was, or the handle was set, the store reachable and its shoe
    collection empty, and afterwards that collection holds the four demo
    records under fresh identifiers while every other collection is
    unchanged. *)
Theorem seed_effect (now : datetime) (db : handle) :
  snd (post_api_seed now db) = db \/
  exists d d',
    db = Some d /\ db_fault d = None /\ collection d "shoe" = [] /\
    post_api_seed now db = (Reply 200 (Inserted 4), Some d') /\
    collection d' "shoe" = assign_ids (next_oid d) (demo_items now) /\
    length (collection d' "shoe") = 4 /\
    (forall c, c <> "shoe" -> collection d' c = collection d c).
Proof.
  destruct db as [d | ]; [ | by left].
  destruct (db_fault d) as [msg | ] eqn:Hd.
  - left. by rewrite (seed_unreachable now d msg Hd).
  - destruct (collection d "shoe") as [ | doc docs] eqn:Hc.
    + right. destruct (seed_when_empty now d Hd Hc) as (d' & E & Hc' & Hother & _).
      exists d, d'. rewrite Hc'. by repeat split.
    + left. rewrite (seed_guarded now d Hd); [done | by rewrite Hc].
Qed.

(** X4: seeding is idempotent on the store: a second seed request, at
    whatever time, leaves the store as the first one left it. *)
Theorem seed_idempotent (now now' : datetime) (db : handle) :
  snd (post_api_seed now' (snd (post_api_seed now db)))
    = snd (post_api_seed now db).
Proof.
  destruct db as [d | ]; [ | done].
  destruct (db_fault d) as [msg | ] eqn:Hd.
  - rewrite (seed_unreachable now d msg Hd). simpl.
    by rewrite (seed_unreachable now' d msg Hd).
  - destruct (collection d "shoe") as [ | doc docs] eqn:Hc.
    + destruct (seed_when_empty now d Hd Hc) as (d' & -> & Hc' & _ & Hd').
      simpl. rewrite (seed_guarded now' d' Hd'); [done | by rewrite Hc'].
    + assert (Hne : collection d "shoe" <> []) by (by rewrite Hc).
      rewrite (seed_guarded now d Hd Hne). simpl.
      by rewrite (seed_guarded now' d Hd Hne).
Qed.

Lemma list_brands_run (d : Database) :
  db_fault d = None ->
  get_api_brands (Some d)
    = (Reply 200 (dedup (concat (map (field_values "brand")
                                   (collection d "shoe")))), Some d).
Proof.
  intros Hd. unfold get_api_brands, list_brands, distinct. run.
  by rewrite (reach_ok d _ Hd).
Qed.

(** X5: after seeding a reachable store whose shoe collection is empty,
    list-brands answers the two brands of the demo records, each once, in
    some order. *)
Theorem brands_after_seeding (now : datetime) (d : Database) :
  db_fault d = None ->
  collection d "shoe" = [] ->
  exists brands,
    fst (get_api_brands (snd (post_api_seed now (Some d)))) = Reply 200 brands /\
    brands ≡ₚ [VStr "Nike"; VStr "Puma"].
Proof.
  intros Hd Hc.
  destruct (seed_when_empty now d Hd Hc) as (d' & -> & Hc' & _ & Hd').
  simpl. rewrite (list_brands_run d' Hd'), Hc'. by eexists.
Qed.

Lemma brands_after_seeding_witness :
  exists brands,
    fst (get_api_brands (snd (post_api_seed noon (Some empty_store))))
      = Reply 200 brands /\
    brands ≡ₚ [VStr "Nike"; VStr "Puma"].
Proof. apply (brands_after_seeding noon empty_store); reflexivity. Defined.

(** ** The store under any sequence of requests *)

Lemma keeps_bounds_stored (payload : ShoeCreate.t) (v : value) :
  Shoe.ge0 (ShoeCreate.price payload)
    && Shoe.ge0_le5 (ShoeCreate.rating payload) = true ->
  keeps_bounds (<["_id" := v]> (Shoe.model_dump (to_shoe payload))) = true.
Proof.
  intros [Hprice Hrating]%andb_true_iff.
  destruct payload as [name brand price description images colors sizes
                         featured rating in_stock].
  unfold keeps_bounds, Shoe.model_dump, to_shoe, Shoe.ge0, Shoe.ge0_le5 in *.
  simpl in *. simplify_map_eq. rewrite Hprice. simpl.
  by destruct rating.
Qed.

Lemma demo_items_keep_bounds (now : datetime) (oid : N) :
  forallb keeps_bounds (assign_ids oid (demo_items now)) = true.
Proof. vm_compute. reflexivity. Qed.

Lemma demo_items_have_ids (now : datetime) (oid : N) :
  forallb has_object_id (assign_ids oid (demo_items now)) = true.
Proof. vm_compute. reflexivity. Qed.

Lemma serve_keeps_inv (d0 d : Database) (c : api_call) :
  store_inv d0 d -> exists d', serve (Some d) c = Some d' /\ store_inv d0 d'.
Proof.
  intros (Hfault & Hids & Hvalid & Hprefix).
  assert (Hsame : exists d', Some d = Some d' /\ store_inv d0 d')
    by (exists d; by repeat split).
  destruct c as [ | | environ | q | payload | | now]; simpl; try done.
  - by rewrite (proj1 (read_only_handlers q (Some d))).
  - destruct (post_api_shoes_validated_cases payload (Some d))
      as [[-> _] | (d1 & d' & Hp & [= <-] & Hd & -> & Hc & _ & Hd')];
      [done | ].
    exists d'. split; [done | ]. repeat split.
    + congruence.
    + unfold ids_assigned. rewrite Hc, forallb_app. apply andb_true_iff.
      split; [done | ]. simpl. unfold has_object_id.
      by rewrite lookup_insert_eq.
    + unfold shoes_keep_bounds. rewrite Hc, forallb_app. apply andb_true_iff.
      split; [done | ]. simpl. by rewrite (keeps_bounds_stored payload _ Hp).
    + etrans; [exact Hprefix | ]. rewrite Hc. by apply prefix_app_r.
  - by rewrite (proj2 (read_only_handlers (mkQuery None None None) (Some d))).
  - destruct (db_fault d) as [msg | ] eqn:Hd.
    + by rewrite (seed_unreachable now d msg Hd).
    + destruct (collection d "shoe") as [ | doc docs] eqn:Hc.
      * destruct (seed_when_empty now d Hd Hc) as (d' & -> & Hc' & _ & Hd').
        exists d'. split; [done | ]. repeat split.
        -- congruence.
        -- unfold ids_assigned. rewrite Hc'. apply demo_items_have_ids.
        -- unfold shoes_keep_bounds. rewrite Hc'. apply demo_items_keep_bounds.
        -- apply prefix_nil_inv in Hprefix. rewrite Hprefix. apply prefix_nil.
      * rewrite (seed_guarded now d Hd); [done | by rewrite Hc].
Qed.

Lemma serve_all_keep_inv (calls : list api_call) (d0 d : Database) :
  store_inv d0 d ->
  exists d', foldl serve (Some d) calls = Some d' /\ store_inv d0 d'.
Proof.
  revert d. induction calls as [ | c calls IH]; intros d Hinv; simpl.
  - by exists d.
  - destruct (serve_keeps_inv d0 d c Hinv) as (d1 & -> & Hinv1).
    by apply IH.
Qed.

(** X6: a store whose shoe records carry store identifiers and keep the
    bounds of the data model (text under name and brand, price at least 0,
    rating null or between 0 and 5) stays so under any sequence of requests
    that reach the handlers, although seeding inserts its records without
    validation; and the records it held are still there, in place and in
    the same order: nothing is updated or removed. *)
Theorem api_calls_keep_store_valid (calls : list api_call) (d : Database) :
  ids_assigned d "shoe" = true ->
  shoes_keep_bounds d = true ->
  exists d',
    foldl serve (Some d) calls = Some d' /\
    db_fault d' = db_fault d /\
    ids_assigned d' "shoe" = true /\
    shoes_keep_bounds d' = true /\
    collection d "shoe" `prefix_of` collection d' "shoe".
Proof.
  intros Hids Hvalid.
  destruct (serve_all_keep_inv calls d d) as (d' & E & Hf & Hids' & Hvalid' & Hpre).
  { by repeat split. }
  exists d'. by repeat split.
Qed.

Lemma api_calls_keep_store_valid_witness :
  exists d',
    foldl serve (Some empty_store)
      [CallSeed noon; CallCreateShoe full_payload; CallListBrands;
       CallCreateShoe negative_price_payload] = Some d' /\
    db_fault d' = db_fault empty_store /\
    ids_assigned d' "shoe" = true /\
    shoes_keep_bounds d' = true /\
    collection empty_store "shoe" `prefix_of` collection d' "shoe".
Proof.
  apply (api_calls_keep_store_valid
           [CallSeed noon; CallCreateShoe full_payload; CallListBrands;
            CallCreateShoe negative_price_payload] empty_store);
    reflexivity.
Defined.

(** ** Create shoe, then read *)

Lemma model_dump_to_shoe (payload : ShoeCreate.t) :
  Shoe.model_dump (to_shoe payload) = ShoeCreate.model_dump payload.
Proof. by destruct payload. Qed.

Lemma stored_shoe_matches (payload : ShoeCreate.t) (q : shoes_query) (v : value) :
  q_brand q = None \/ q_brand q = Some (ShoeCreate.brand payload) ->
  q_featured q = None \/ q_featured q = Some (ShoeCreate.featured payload) ->
  matches (list_shoes_filter (q_brand q) (q_featured q))
    (<["_id" := v]> (Shoe.model_dump (to_shoe payload))) = true.
Proof.
  intros Hb Hf. apply matches_spec. intros k w.
  rewrite list_shoes_filter_lookup.
  intros [(b & -> & Hq & _ & ->) | (f & -> & Hq & ->)].
  - destruct Hb as [Hb | Hb]; rewrite Hb in Hq; simplify_eq.
    unfold Shoe.model_dump. by simplify_map_eq.
  - destruct Hf as [Hf | Hf]; rewrite Hf in Hq; simplify_eq.
    unfold Shoe.model_dump. by simplify_map_eq.
Qed.

Lemma last_exposed (docs items : list pydict) (doc r : pydict) :
  expose_ids (docs ++ [doc]) = Ok items ->
  expose_id doc = Ok r ->
  last items = Some r.
Proof.
  intros H%expose_ids_Forall2 Hr.
  apply Forall2_app_inv_l in H as (items1 & items2 & _ & H2 & ->).
  inversion H2 as [ | ? r' ? items3 Hr' H3]; subst.
  inversion H3; subst. rewrite Hr in Hr'. injection Hr' as <-.
  apply last_snoc.
Qed.

Lemma respond_reply {A} (success status_code : Z) (r : result A) (content : A) :
  respond success r = Reply status_code content -> r = Ok content.
Proof. destruct r as [a | [ | | | ]]; simpl; by intros [= _ <-] || discriminate. Qed.

(** X7: a shoe that was created is listed. After a create request whose
    request model keeps the bounds, on a reachable store, take a list-shoes
    request whose brand is absent or the shoe's brand, whose featured flag
    is absent or the shoe's, and whose limit exceeds the number of records
    stored before: when it is answered with records, the new record is the
    last of them; its [id] is the identifier the create request answered,
    it has no [_id], and its other fields are the fields of the request
    model. *)
Theorem created_shoe_is_listed (payload : ShoeCreate.t) (d : Database)
    (q : shoes_query) (items : list pydict) :
  Shoe.ge0 (ShoeCreate.price payload) = true ->
  Shoe.ge0_le5 (ShoeCreate.rating payload) = true ->
  db_fault d = None ->
  q_brand q = None \/ q_brand q = Some (ShoeCreate.brand payload) ->
  q_featured q = None \/ q_featured q = Some (ShoeCreate.featured payload) ->
  length (collection d "shoe") < Z.to_nat (default 50%Z (q_limit q)) ->
  fst (get_api_shoes q (snd (post_api_shoes_validated payload (Some d))))
    = Reply 200 items ->
  exists id record,
    fst (post_api_shoes_validated payload (Some d)) = Reply 201 id /\
    last items = Some record /\
    record !! "id" = Some (VStr id) /\
    record !! "_id" = None /\
    forall k, k <> "id" -> k <> "_id" ->
              record !! k = ShoeCreate.model_dump payload !! k.
Proof.
  intros Hprice Hrating Hd Hb Hf Hlimit.
  destruct (post_api_shoes_validated_cases payload (Some d))
    as [[_ [Hp | [Hnone | (d0 & msg & [= <-] & Hmsg)]]]
        | (d0 & d' & _ & [= <-] & _ & -> & Hc & _ & Hd')];
    [by rewrite Hprice, Hrating in Hp | discriminate Hnone
     | by rewrite Hd in Hmsg | ].
  simpl.
  set (oid := mkObjectId (next_oid d)) in *.
  set (new := <["_id" := VObjectId oid]> (Shoe.model_dump (to_shoe payload))) in *.
  set (flt := list_shoes_filter (q_brand q) (q_featured q)).
  set (old := filter (fun doc => matches flt doc) (collection d "shoe")).
  set (record := delete "_id" (<["id" := VStr (str_ObjectId oid)]> new)).
  unfold get_api_shoes, route. rewrite (list_shoes_run _ _ _ d' Hd'), Hc.
  fold flt. rewrite filter_app. fold old.
  rewrite (filter_cons_True _ new []).
  2: { apply Is_true_true. by apply stored_shoe_matches. }
  rewrite filter_nil, take_ge.
  2: { rewrite length_app. simpl.
       pose proof (length_filter (fun doc => matches flt doc)
                     (collection d "shoe")) as Hle.
       fold old in Hle. lia. }
  simpl. intros Hitems%respond_reply.
  exists (str_ObjectId oid), record. split; [done | ].
  split.
  { apply (last_exposed old items new record Hitems).
    by rewrite (expose_id_object_id new oid) by apply lookup_insert_eq. }
  subst record new. split; [by rewrite lookup_delete_ne, lookup_insert_eq | ].
  split; [apply lookup_delete_eq | ].
  intros k Hk Hk'.
  rewrite lookup_delete_ne, !lookup_insert_ne by done.
  by rewrite model_dump_to_shoe.
Qed.

Lemma created_shoe_is_listed_witness :
  exists id record,
    fst (post_api_shoes_validated full_payload (Some seeded_store)) = Reply 201 id /\
    last (returned (fst (get_api_shoes (mkQuery (Some "Adidas") (Some true) None)
                           (snd (post_api_shoes_validated full_payload
                                   (Some seeded_store))))))
      = Some record /\
    record !! "id" = Some (VStr id) /\
    record !! "_id" = None /\
    forall k, k <> "id" -> k <> "_id" ->
              record !! k = ShoeCreate.model_dump full_payload !! k.
Proof.
  apply (created_shoe_is_listed full_payload seeded_store
           (mkQuery (Some "Adidas") (Some true) None));
    try (vm_compute; reflexivity).
  - right. reflexivity.
  - right. reflexivity.
  - vm_compute. lia.
Defined.

(** X8: the brand of a shoe that was created is listed: after a create
    request whose request model keeps the bounds, on a reachable store, the
    brands that a list-brands response carries hold the shoe's brand, and
    hold no brand twice. *)
Theorem created_brand_is_listed (payload : ShoeCreate.t) (d : Database)
    (brands : list value) :
  Shoe.ge0 (ShoeCreate.price payload) = true ->
  Shoe.ge0_le5 (ShoeCreate.rating payload) = true ->
  db_fault d = None ->
  fst (get_api_brands (snd (post_api_shoes_validated payload (Some d))))
    = Reply 200 brands ->
  VStr (ShoeCreate.brand payload) ∈ brands /\ NoDup brands.
Proof.
  intros Hprice Hrating Hd.
  destruct (post_api_shoes_validated_cases payload (Some d))
    as [[_ [Hp | [Hnone | (d0 & msg & [= <-] & Hmsg)]]]
        | (d0 & d' & _ & [= <-] & _ & -> & Hc & _ & Hd')];
    [by rewrite Hprice, Hrating in Hp | discriminate Hnone
     | by rewrite Hd in Hmsg | ].
  simpl. rewrite (list_brands_run d' Hd'). simpl. intros [= <-].
  split; [ | apply NoDup_dedup].
  apply elem_of_dedup, elem_of_brand_values.
  exists (<["_id" := VObjectId (mkObjectId (next_oid d))]>
            (Shoe.model_dump (to_shoe payload))).
  split; [rewrite Hc; apply elem_of_app; right; by left | ].
  unfold field_values, Shoe.model_dump. simplify_map_eq. by left.
Qed.

Lemma created_brand_is_listed_witness :
  VStr (ShoeCreate.brand full_payload)
    ∈ returned (fst (get_api_brands
                       (snd (post_api_shoes_validated full_payload
                               (Some seeded_store))))) /\
  NoDup (returned (fst (get_api_brands
                          (snd (post_api_shoes_validated full_payload
                                  (Some seeded_store)))))).
Proof.
  apply (created_brand_is_listed full_payload seeded_store);
    vm_compute; reflexivity.
Defined.

(** X9: once a shoe was created, seeding adds nothing: after a create
    request whose request model keeps the bounds, on a reachable store, a
    seed request reports the number of records, the new one included, and
    leaves the store as the create request left it. *)
Theorem seed_after_create_is_guarded (payload : ShoeCreate.t) (d : Database)
    (now : datetime) :
  Shoe.ge0 (ShoeCreate.price payload) = true ->
  Shoe.ge0_le5 (ShoeCreate.rating payload) = true ->
  db_fault d = None ->
  post_api_seed now (snd (post_api_shoes_validated payload (Some d)))
    = (Reply 200 (AlreadySeeded (S (length (collection d "shoe")))),
       snd (post_api_shoes_validated payload (Some d))).
Proof.
  intros Hprice Hrating Hd.
  destruct (post_api_shoes_validated_cases payload (Some d))
    as [[_ [Hp | [Hnone | (d0 & msg & [= <-] & Hmsg)]]]
        | (d0 & d' & _ & [= <-] & _ & -> & Hc & _ & Hd')];
    [by rewrite Hprice, Hrating in Hp | discriminate Hnone
     | by rewrite Hd in Hmsg | ].
  simpl. rewrite (seed_guarded now d' Hd').
  - rewrite Hc, length_app. simpl. by rewrite Nat.add_1_r.
  - rewrite Hc. by destruct (collection d "shoe").
Qed.

Lemma seed_after_create_is_guarded_witness :
  post_api_seed later (snd (post_api_shoes_validated full_payload (Some empty_store)))
    = (Reply 200 (AlreadySeeded (S (length (collection empty_store "shoe")))),
       snd (post_api_shoes_validated full_payload (Some empty_store))).
Proof.
  apply (seed_after_create_is_guarded full_payload empty_store later);
    vm_compute; reflexivity.
Defined.

(** X10: the handler of create writes only when it answers 201. For every
    request model and every state of the handle: a broken bound of [Shoe]
    makes it answer 500 with the store as it was; and whenever it answers
    with an error, whatever the reason (a broken bound, an unset handle, a
    store that cannot be reached), the store is as it was. *)
Theorem rejected_create_writes_nothing (payload : ShoeCreate.t) (db : handle) :
  (Shoe.ge0 (ShoeCreate.price payload)
     && Shoe.ge0_le5 (ShoeCreate.rating payload) = false ->
   post_api_shoes_validated payload db
     = (ErrorReply 500 "Internal Server Error", db)) /\
  (forall status_code detail,
     fst (post_api_shoes_validated payload db) = ErrorReply status_code detail ->
     snd (post_api_shoes_validated payload db) = db) /\
  (snd (post_api_shoes_validated payload db) = db \/
   exists id, fst (post_api_shoes_validated payload db) = Reply 201 id).
Proof.
  destruct (post_api_shoes_validated_cases payload db)
    as [[E _] | (d & d' & Hp & -> & _ & E & _)]; rewrite E; simpl.
  - split; [done | split; [done | by left]].
  - split; [by rewrite Hp | split; [done | right; by eexists]].
Qed.

(** ** The request model *)

(** X12: the second validation in [create_shoe] never fails on a type: the
    dumped request model always fits the fields of [Shoe], field by field,
    so [Shoe] is built with the same field values exactly when the price is
    at least 0 and the rating absent or within 0 and 5, and the handler
    raises [ValidationError] exactly when a bound is broken. *)
Theorem create_shoe_revalidation (payload : ShoeCreate.t) :
  Shoe.typed (ShoeCreate.model_dump payload) = Some (to_shoe payload) /\
  match Shoe.parse (ShoeCreate.model_dump payload) with
  | Ok shoe =>
      shoe = to_shoe payload /\
      (0 <=? ShoeCreate.price payload)%float = true /\
      match ShoeCreate.rating payload with
      | None => True
      | Some r => (0 <=? r)%float = true /\ (r <=? 5)%float = true
      end
  | Raise e =>
      (exists msg, e = ValidationError msg) /\
      ((0 <=? ShoeCreate.price payload)%float = false \/
       exists r, ShoeCreate.rating payload = Some r /\
                 ((0 <=? r)%float = false \/ (r <=? 5)%float = false))
  end.
Proof.
  split; [apply Shoe_typed_model_dump | ].
  rewrite Shoe_parse_model_dump. unfold Shoe.ge0, Shoe.ge0_le5.
  destruct (0 <=? ShoeCreate.price payload)%float eqn:Hprice; simpl.
  - destruct (ShoeCreate.rating payload) as [r | ]; simpl; [ | done].
    destruct (0 <=? r)%float eqn:H0; simpl.
    + destruct (r <=? 5)%float eqn:H5; simpl; [done | ].
      split; [by eexists | right; exists r; auto].
    + split; [by eexists | right; exists r; auto].
  - split; [by eexists | by left].
Qed.

(** ** Diagnostics: what the response shows *)

Lemma str_prefix_split (n : nat) (s : string) :
  exists rest, s = str_prefix n s +:+ rest /\
               String.length (str_prefix n s) = Nat.min n (String.length s).
Proof.
  revert s. induction n as [ | n IH]; intros s.
  - exists s. by destruct s.
  - destruct s as [ | c s]; [by exists "" | ].
    destruct (IH s) as (rest & Hs & Hlen). exists rest.
    change (str_prefix (S n) (String c s)) with (String c (str_prefix n s)).
    split; [ | simpl; f_equal; exact Hlen].
    change (String c s = String c (str_prefix n s +:+ rest)). by f_equal.
Qed.

(** X14: the two configuration fields of the diagnostics response say only
    whether the environment variable is set to a non-empty value, whatever
    the state of the store: the name of the database and the values of the
    variables never appear. The response always has the same six keys, and
    it reports a connection exactly when the handle is set. *)
Theorem test_database_config_fields (environ : gmap string string) (db : handle) :
  exists response,
    test_database environ db = Ok response /\
    response !! "database_url" =
      Some (VStr match environ !! "DATABASE_URL" with
                 | Some (String _ _) => "✅ Set"
                 | _ => "❌ Not Set"
                 end) /\
    response !! "database_name" =
      Some (VStr match environ !! "DATABASE_NAME" with
                 | Some (String _ _) => "✅ Set"
                 | _ => "❌ Not Set"
                 end) /\
    response !! "backend" = Some (VStr "✅ Running") /\
    dom response =
      ({[ "backend"; "database"; "database_url"; "database_name";
          "connection_status"; "collections" ]} : gset string) /\
    response !! "connection_status" =
      Some (VStr match db with
                 | Some _ => "Connected"
                 | None => "Not Connected"
                 end).
Proof.
  assert (Henv : forall k,
    (if getenv_truthy environ k then "✅ Set" else "❌ Not Set") =
    match environ !! k with
    | Some (String _ _) => "✅ Set"
    | _ => "❌ Not Set"
    end).
  { intros k. unfold getenv_truthy. by destruct (environ !! k) as [[ | c s] | ]. }
  unfold test_database, list_collection_names, reach.
  destruct db as [d | ]; [destruct (db_fault d) as [msg | ] | ]; run;
    eexists; (split; [reflexivity | ]);
    rewrite <- !Henv;
    (split; [by simplify_map_eq | ]); (split; [by simplify_map_eq | ]);
    (split; [by simplify_map_eq | ]);
    (split; [ | by simplify_map_eq]);
    rewrite !dom_insert_L, dom_empty_L; set_solver.
Qed.

(** X15: the error shown by the diagnostics response is a prefix of the
    error that was caught, of the length of the error or 50, whichever is
    less: nothing but a tail beyond 50 characters is dropped. *)
Theorem test_database_error_prefix (environ : gmap string string) (d : Database)
    (msg : string) :
  db_fault d = Some msg ->
  exists response shown rest,
    test_database environ (Some d) = Ok response /\
    response !! "database" = Some (VStr ("⚠️  Connected but Error: " +:+ shown)) /\
    msg = shown +:+ rest /\
    String.length shown = Nat.min 50 (String.length msg) /\
    response !! "collections" = Some (VList []).
Proof.
  intros Hd. destruct (str_prefix_split 50 msg) as (rest & Hmsg & Hlen).
  unfold test_database, list_collection_names, reach. rewrite Hd. run.
  eexists. exists (str_prefix 50 msg), rest.
  split; [reflexivity | ].
  split; [by simplify_map_eq | ].
  split; [done | split; [done | by simplify_map_eq]].
Qed.

Lemma test_database_error_prefix_witness :
  exists response shown rest,
    test_database ∅ (Some timeout_store) = Ok response /\
    response !! "database" = Some (VStr ("⚠️  Connected but Error: " +:+ shown)) /\
    "localhost:27017: [Errno 111] Connection refused, Timeout: 30s, Topology Description: unknown"
      = shown +:+ rest /\
    String.length shown
      = Nat.min 50 (String.length "localhost:27017: [Errno 111] Connection refused, Timeout: 30s, Topology Description: unknown") /\
    response !! "collections" = Some (VList []).
Proof.
  apply (test_database_error_prefix ∅ timeout_store). reflexivity.
Defined.

(** ** List shoes: only matching records *)

Lemma returned_shoes_match (q : shoes_query) (db : handle) (r : pydict) :
  r ∈ returned (fst (get_api_shoes q db)) ->
  exists d, expose_id d = Ok r /\
            matches (list_shoes_filter (q_brand q) (q_featured q)) d = true.
Proof.
  unfold get_api_shoes, route.
  destruct db as [d | ]; [ | by intros Hr%elem_of_nil].
  destruct (db_fault d) as [msg | ] eqn:Hd.
  - unfold list_shoes, get_documents, find. run.
    rewrite (reach_fault d _ msg Hd). simpl. by intros Hr%elem_of_nil.
  - rewrite (list_shoes_run _ _ _ d Hd). simpl.
    destruct (expose_ids _) as [items | e] eqn:E; simpl;
      [ | destruct e; by intros Hr%elem_of_nil].
    intros Hr.
    destruct (expose_ids_elem_of _ _ _ E Hr) as [doc [Hdoc Hexp]].
    apply elem_of_take in Hdoc as [i [Hdoc _]].
    apply list_elem_of_lookup_2, list_elem_of_filter in Hdoc as [Hm _].
    exists doc. split; [done | by apply Is_true_true].
Qed.

(** X18: list-shoes returns only matching records, and the renaming of the
    identifier does not disturb the match: with a non-empty brand in the
    query every returned record has that brand, and with a featured flag in
    the query every returned record has that flag. *)
Theorem list_shoes_only_matching (q : shoes_query) (db : handle) :
  Forall (fun r =>
    (forall b, q_brand q = Some b -> b <> "" -> r !! "brand" = Some (VStr b)) /\
    (forall f, q_featured q = Some f -> r !! "featured" = Some (VBool f)))
    (returned (fst (get_api_shoes q db))).
Proof.
  apply Forall_forall. intros r Hr.
  destruct (returned_shoes_match q db r Hr) as (d & Hexp & Hm).
  destruct (expose_id_fields d r Hexp) as [Hkeep _].
  rewrite matches_spec in Hm.
  split.
  - intros b Hb Hne. rewrite Hkeep by done. apply Hm.
    apply list_shoes_filter_lookup. left. by exists b.
  - intros f Hf. rewrite Hkeep by done. apply Hm.
    apply list_shoes_filter_lookup. right. by exists f.
Qed.
